(** * cryptology/market_data_client.py: the broadcast reader loop

    A shallow embedding of [receive_msg], [reader_loop] and [run] of
    [cryptology/market_data_client.py], together with the pieces of the
    Python standard library the loop calls ([Decimal],
    [datetime.utcfromtimestamp], subscripting of decoded JSON values), and
    the properties of the message-reception and dispatch logic.

    Conventions.
    - A Python [str] is a [string]; one [ascii] stands for one code point
      below 256.
    - A decoded JSON document is a [json] value; a Python [dict] produced by
      [json.loads] is an association list in insertion order, looked up by
      first match.
    - A computation of the loop body is a pair of the callback activity it
      caused (a list of [event]s, oldest first) and either the exception it
      raised or its value.
    - The connection is the list of what the successive [ws.receive()]
      calls give; the loop run on a finite list either ends with an
      exception or is left suspended in the next [ws.receive()].
    - Library behaviour is that of CPython on 64-bit Linux.
    - The market-data callback, once awaited, returns or raises; the
      order-book and trades callbacks are coroutine functions.
    - Logging has no effect on control flow and is left out. *)

From Stdlib Require Import ZArith QArith List String Ascii Bool Lia.
From Stdlib Require Import Floats.SpecFloat.
Import ListNotations.

Set Warnings "-register-all".

Open Scope string_scope.
Open Scope list_scope.
Open Scope Z_scope.

(* ================================================================== *)
(** * Decoded JSON values *)

(** What [json.loads] returns: [None], [bool], [int], [float], [str],
    [list] and [dict] with [str] keys. *)
Inductive json : Type :=
| JNull
| JBool (b : bool)
| JInt (n : Z)
| JFloat (f : spec_float)
| JStr (s : string)
| JArray (items : list json)
| JObject (members : list (string * json)).

(** [d.get(key)] on a dict: first binding of [key]. *)
Fixpoint dict_lookup (key : string) (members : list (string * json)) : option json :=
  match members with
  | [] => None
  | (k, v) :: rest => if String.eqb k key then Some v else dict_lookup key rest
  end.

(** [v == s] for a string literal [s]: only a [str] with the same
    characters compares equal. *)
Definition py_eq_str (v : json) (s : string) : bool :=
  match v with
  | JStr t => String.eqb t s
  | _ => false
  end.

(** Unhashable JSON values: [list] and [dict]. *)
Definition hashable (v : json) : bool :=
  match v with
  | JArray _ | JObject _ => false
  | _ => true
  end.

(* ================================================================== *)
(** * Websocket frames (aiohttp) *)

(** [aiohttp.WSMsgType]. *)
Inductive WSMsgType : Type :=
| CONTINUATION | TEXT | BINARY | PING | PONG | CLOSE | CLOSING | CLOSED | ERROR.

Definition WSMsgType_eqb (a b : WSMsgType) : bool :=
  match a, b with
  | CONTINUATION, CONTINUATION | TEXT, TEXT | BINARY, BINARY
  | PING, PING | PONG, PONG | CLOSE, CLOSE | CLOSING, CLOSING
  | CLOSED, CLOSED | ERROR, ERROR => true
  | _, _ => false
  end.

(** The [data] attribute of a frame: text, bytes, a close code, [None], or
    (for [ERROR]) the transport's exception, kept as its description. *)
Inductive ws_data : Type :=
| DataStr (s : string)
| DataBytes (b : string)
| DataInt (code : Z)
| DataNone
| DataException (description : string).

(** [aiohttp.WSMessage]: [type], [data], [extra] (the close reason of a
    [CLOSE] frame). *)
Record WSMessage : Type := mkWSMessage {
  msg_type : WSMsgType;
  msg_data : ws_data;
  msg_extra : option string
}.

(* ================================================================== *)
(** * Exceptions *)

(** Exception classes the loop and the library calls in it can raise. *)
Inductive builtin_class : Type :=
| Exception
| LookupError | KeyError | IndexError
| ValueError | JSONDecodeError
| TypeError | AttributeError
| ArithmeticError | OverflowError
| DecimalException | InvalidOperation
| OSError | TimeoutError
(* the [exceptions] module of this package *)
| CryptologyError | UnsupportedMessageType | UnsupportedMessage | ConnectionClosed.

Definition builtin_class_eqb (a b : builtin_class) : bool :=
  match a, b with
  | Exception, Exception | LookupError, LookupError | KeyError, KeyError
  | IndexError, IndexError | ValueError, ValueError
  | JSONDecodeError, JSONDecodeError | TypeError, TypeError
  | AttributeError, AttributeError | ArithmeticError, ArithmeticError
  | OverflowError, OverflowError | DecimalException, DecimalException
  | InvalidOperation, InvalidOperation | OSError, OSError
  | TimeoutError, TimeoutError | CryptologyError, CryptologyError
  | UnsupportedMessageType, UnsupportedMessageType
  | UnsupportedMessage, UnsupportedMessage
  | ConnectionClosed, ConnectionClosed => true
  | _, _ => false
  end.

(** Method resolution order of each class, the class itself first.

    Modelled from the spec: the [exceptions] module is not among the
    sources; section 7 lists [ConnectionClosed], [UnsupportedMessageType]
    and the generic decode-failure error as separate failure classes and
    gives none of them a built-in base other than [Exception]. *)
Definition mro (c : builtin_class) : list builtin_class :=
  match c with
  | Exception => [Exception]
  | LookupError => [LookupError; Exception]
  | KeyError => [KeyError; LookupError; Exception]
  | IndexError => [IndexError; LookupError; Exception]
  | ValueError => [ValueError; Exception]
  | JSONDecodeError => [JSONDecodeError; ValueError; Exception]
  | TypeError => [TypeError; Exception]
  | AttributeError => [AttributeError; Exception]
  | ArithmeticError => [ArithmeticError; Exception]
  | OverflowError => [OverflowError; ArithmeticError; Exception]
  | DecimalException => [DecimalException; ArithmeticError; Exception]
  | InvalidOperation => [InvalidOperation; DecimalException; ArithmeticError; Exception]
  | OSError => [OSError; Exception]
  | TimeoutError => [TimeoutError; Exception]
  | CryptologyError => [CryptologyError; Exception]
  | UnsupportedMessageType => [UnsupportedMessageType; Exception]
  | UnsupportedMessage => [UnsupportedMessage; Exception]
  | ConnectionClosed => [ConnectionClosed; Exception]
  end.

(** A class is one of the above or a class a caller of the package
    defined, with its bases. *)
Inductive exc_class : Type :=
| Class (c : builtin_class)
| UserClass (name : string) (bases : list exc_class).

(** [issubclass(c, target)]. *)
Fixpoint issubclass (c : exc_class) (target : builtin_class) : bool :=
  match c with
  | Class b => existsb (builtin_class_eqb target) (mro b)
  | UserClass _ bases => existsb (fun b => issubclass b target) bases
  end.

(** Constructor arguments an exception carries. *)
Inductive exc_args : Type :=
| NoArgs
| ArgMessage (text : string)
| ArgFrame (msg : WSMessage)
| ArgClose (code : ws_data) (reason : option string).

Record exn : Type := mkExn {
  exn_class : exc_class;
  exn_args : exc_args
}.

Definition isinstance (e : exn) (target : builtin_class) : bool :=
  issubclass (exn_class e) target.

(** An exception of a library class; its message is not modelled. *)
Definition raised (c : builtin_class) : exn := mkExn (Class c) NoArgs.

(** [exceptions.CryptologyError('failed to decode data')]. *)
Definition decode_failure : exn :=
  mkExn (Class CryptologyError) (ArgMessage "failed to decode data").

(* ================================================================== *)
(** * decimal.Decimal *)

(** A [Decimal]: sign, coefficient and exponent of a finite number, an
    infinity, or a (quiet or signaling) NaN with its diagnostic. *)
Inductive Decimal : Type :=
| DFinite (sign : bool) (coefficient : N) (exponent : Z)
| DInfinity (sign : bool)
| DNaN (sign : bool) (signaling : bool) (diagnostic : N).

(** The number a finite [Decimal] stands for,
    [(-1)^sign * coefficient * 10^exponent], as an exact rational. *)
Definition Decimal_value (d : Decimal) : option Q :=
  match d with
  | DFinite sign c e =>
      let n := if sign then - Z.of_N c else Z.of_N c in
      Some (if 0 <=? e
            then Qmake (n * 10 ^ e) 1
            else Qmake n (Z.to_pos (10 ^ (- e))))
  | _ => None
  end.

Module DecimalSyntax.

(** The numeric strings [Decimal] accepts, after the pattern [_parser] of
    Lib/_pydecimal.py, with the internal limits of the accelerated
    implementation that CPython loads in its place. *)

(** A decimal digit, among the code points a [string] holds. *)
Definition is_digit (c : ascii) : bool :=
  let n := N_of_ascii c in ((48 <=? n) && (n <=? 57))%N.

Definition digit_value (c : ascii) : N := (N_of_ascii c - 48)%N.

(** [int(ds)] for a string of digits; [0] for the empty string, which
    the callers replace by ['0'] first. *)
Definition int_of_digits (ds : list ascii) : N :=
  fold_left (fun acc c => (10 * acc + digit_value c)%N) ds 0%N.

(** Characters [str.strip()] removes, among the code points below 256. *)
Definition is_space (c : ascii) : bool :=
  let n := N_of_ascii c in
  (((9 <=? n) && (n <=? 13)) || ((28 <=? n) && (n <=? 32))
   || (n =? 133) || (n =? 160))%N.

Fixpoint lstrip (l : list ascii) : list ascii :=
  match l with
  | c :: r => if is_space c then lstrip r else l
  | [] => []
  end.

Definition strip (l : list ascii) : list ascii :=
  rev (lstrip (rev (lstrip l))).

(** [.replace] of every underscore by nothing. *)
Definition remove_underscores (l : list ascii) : list ascii :=
  filter (fun c => negb (Ascii.eqb c "_")) l.

(** Case folding of [re.IGNORECASE] on the letters of the pattern. *)
Definition lower (c : ascii) : ascii :=
  let n := N_of_ascii c in
  if ((65 <=? n) && (n <=? 90))%N then ascii_of_N (n + 32) else c.

(** Longest prefix of digits, and the rest (a greedy digit run). *)
Fixpoint span_digits (l : list ascii) : list ascii * list ascii :=
  match l with
  | c :: r =>
      if is_digit c
      then let (ds, rest) := span_digits r in (c :: ds, rest)
      else ([], l)
  | [] => ([], [])
  end.

(** The optional sign. *)
Definition take_sign (l : list ascii) : bool * list ascii :=
  match l with
  | "-"%char :: r => (true, r)
  | "+"%char :: r => (false, r)
  | _ => (false, l)
  end.

(** The optional exponent part up to the end of the string: the letter
    E, an optional sign and at least one digit; the value is that of
    [int(exp or '0')]. *)
Definition parse_exponent (l : list ascii) : option Z :=
  match l with
  | [] => Some 0
  | c :: r =>
      if Ascii.eqb (lower c) "e"
      then let (neg, r1) := take_sign r in
           let (ds, rest) := span_digits r1 in
           match ds, rest with
           | _ :: _, [] =>
               Some (if neg then - Z.of_N (int_of_digits ds)
                     else Z.of_N (int_of_digits ds))
           | _, _ => None
           end
      else None
  end.

(** The first alternative of the pattern, a number with at least one
    digit: a possibly empty integer part, an optional point with a
    possibly empty fractional part, and the optional exponent part; the
    result is the digits [intpart+fracpart] of the coefficient and the
    exponent [exp - len(fracpart)]. *)
Definition parse_number (l : list ascii) : option (list ascii * Z) :=
  let (intpart, r1) := span_digits l in
  let (fracpart, r2) :=
    match r1 with
    | "."%char :: t => span_digits t
    | _ => ([], r1)
    end in
  match intpart ++ fracpart with
  | [] => None
  | _ :: _ =>
      match parse_exponent r2 with
      | Some e => Some (intpart ++ fracpart, e - Z.of_nat (List.length fracpart))
      | None => None
      end
  end.

(** Internal limits of the accelerated implementation (64-bit build):
    the conversion is exact, so a number that would need rounding or
    clamping in the widest context is refused. *)
Definition MAX_PREC : Z := 999999999999999999.
Definition MAX_EMAX : Z := 999999999999999999.
Definition MIN_ETINY : Z := -1999999999999999997.

Fixpoint drop_zeros (ds : list ascii) : list ascii :=
  match ds with
  | c :: r => if Ascii.eqb c "0" then drop_zeros r else ds
  | [] => []
  end.

(** Number of digits of the coefficient [int(ds)]. *)
Definition coefficient_digits (ds : list ascii) : Z :=
  Z.max 1 (Z.of_nat (List.length (drop_zeros ds))).

Definition within_limits (ds : list ascii) (e : Z) : bool :=
  (coefficient_digits ds <=? MAX_PREC)
  && (MIN_ETINY <=? e)
  && (e + coefficient_digits ds - 1 <=? MAX_EMAX).

Fixpoint chars_eqb (a b : list ascii) : bool :=
  match a, b with
  | [], [] => true
  | x :: a', y :: b' => Ascii.eqb x y && chars_eqb a' b'
  | _, _ => false
  end.

(** The other alternatives, up to case: Inf or Infinity, and NaN with
    an optional leading s (signaling) and trailing digits (diagnostic). *)
Definition parse_special (sign : bool) (l : list ascii) : option Decimal :=
  let l := map lower l in
  if chars_eqb l (list_ascii_of_string "inf")
     || chars_eqb l (list_ascii_of_string "infinity")
  then Some (DInfinity sign)
  else
    let (signal, l1) :=
      match l with
      | "s"%char :: t => (true, t)
      | _ => (false, l)
      end in
    match l1 with
    | "n"%char :: "a"%char :: "n"%char :: t =>
        let (ds, rest) := span_digits t in
        match rest with
        | [] =>
            if Z.of_nat (List.length (drop_zeros ds)) <=? MAX_PREC
            then Some (DNaN sign signal (int_of_digits ds))
            else None
        | _ :: _ => None
        end
    | _ => None
    end.

(** [_parser] applied to the stripped value without its underscores,
    and the construction from the match groups; [None] when the pattern
    does not match. *)
Definition parse (value : string) : option Decimal :=
  let l := remove_underscores (strip (list_ascii_of_string value)) in
  let (sign, r) := take_sign l in
  match parse_number r with
  | Some (ds, e) =>
      if within_limits ds e
      then Some (DFinite sign (int_of_digits ds) e)
      else None
  | None => parse_special sign r
  end.

End DecimalSyntax.

(** [Decimal(value)] for a [str]: an exact conversion; a string that is not
    a numeric string, or is one beyond the internal limits, raises
    [decimal.InvalidOperation] (the default context traps it), a subclass
    of [ArithmeticError]. *)
Definition Decimal_from_str (value : string) : exn + Decimal :=
  match DecimalSyntax.parse value with
  | Some d => inr d
  | None => inl (raised InvalidOperation)
  end.

(** [Decimal(value)] for an [int]. *)
Definition Decimal_from_int (value : Z) : Decimal :=
  DFinite (value <? 0) (Z.abs_N value) 0.

(** Lowest terms of [m / 2^k]. *)
Fixpoint reduce_dyadic (m : positive) (k : nat) : positive * nat :=
  match k, m with
  | S k', xO m' => reduce_dyadic m' k'
  | _, _ => (m, k)
  end.

(** [Decimal(value)] for a [float]: [Decimal.from_float], the exact value
    of the binary fraction [n / 2^k] written as [n * 5^k * 10^-k]. *)
Definition Decimal_from_float (f : spec_float) : Decimal :=
  match f with
  | S754_zero s => DFinite s 0 0
  | S754_infinity s => DInfinity s
  | S754_nan => DNaN false false 0
  | S754_finite s m e =>
      if 0 <=? e
      then DFinite s (Z.to_N (Z.pos m * 2 ^ e)) 0
      else let (n, k) := reduce_dyadic m (Z.to_nat (- e)) in
           DFinite s (N.pos n * 5 ^ N.of_nat k) (- Z.of_nat k)
  end.

(* ================================================================== *)
(** * datetime.datetime.utcfromtimestamp *)

(** A naive [datetime]. *)
Record datetime : Type := mkDatetime {
  year : Z; month : Z; day : Z;
  hour : Z; minute : Z; second : Z; microsecond : Z
}.

Module Calendar.

(** Calendar arithmetic of the proleptic Gregorian calendar, after the
    helpers of Lib/datetime.py. Day 1 is 0001-01-01. *)

Definition DI400Y : Z := 146097.
Definition DI100Y : Z := 36524.
Definition DI4Y : Z := 1461.

(** Ordinal of 1970-01-01. *)
Definition EPOCH_ORDINAL : Z := 719163.

Definition MINYEAR : Z := 1.
Definition MAXYEAR : Z := 9999.

Definition is_leap (y : Z) : bool :=
  (y mod 4 =? 0) && (negb (y mod 100 =? 0) || (y mod 400 =? 0)).

(** [_DAYS_IN_MONTH]. *)
Definition DAYS_IN_MONTH (m : Z) : Z :=
  match m with
  | 1 => 31 | 2 => 28 | 3 => 31 | 4 => 30 | 5 => 31 | 6 => 30
  | 7 => 31 | 8 => 31 | 9 => 30 | 10 => 31 | 11 => 30 | 12 => 31
  | _ => -1
  end.

(** [_DAYS_BEFORE_MONTH]. *)
Definition DAYS_BEFORE_MONTH (m : Z) : Z :=
  match m with
  | 1 => 0 | 2 => 31 | 3 => 59 | 4 => 90 | 5 => 120 | 6 => 151
  | 7 => 181 | 8 => 212 | 9 => 243 | 10 => 273 | 11 => 304 | 12 => 334
  | _ => -1
  end.

Definition days_in_month (y m : Z) : Z :=
  if (m =? 2) && is_leap y then 29 else DAYS_IN_MONTH m.

(** Number of days before January 1st of year [y]. *)
Definition days_before_year (y : Z) : Z :=
  let y := y - 1 in y * 365 + y / 4 - y / 100 + y / 400.

(** Number of days in year [y] before the first day of month [m]. *)
Definition days_before_month (y m : Z) : Z :=
  DAYS_BEFORE_MONTH m + (if (2 <? m) && is_leap y then 1 else 0).

(** [_ymd2ord]: the ordinal of a date. *)
Definition ymd2ord (y m d : Z) : Z :=
  days_before_year y + days_before_month y m + d.

(** Month and day of the [n]-th day (from 0) of a year, leap or not. *)
Definition month_day (leapyear : bool) (n : Z) : Z * Z :=
  let month := Z.shiftr (n + 50) 5 in
  let preceding :=
    DAYS_BEFORE_MONTH month + (if (2 <? month) && leapyear then 1 else 0) in
  if n <? preceding
  then
    let month := month - 1 in
    let preceding :=
      preceding
      - (DAYS_IN_MONTH month + (if (month =? 2) && leapyear then 1 else 0)) in
    (month, n - preceding + 1)
  else (month, n - preceding + 1).

(** [_ord2ymd]: year, month and day of an ordinal. *)
Definition ord2ymd (n : Z) : Z * Z * Z :=
  let n := n - 1 in
  let n400 := n / DI400Y in
  let n := n mod DI400Y in
  let n100 := n / DI100Y in
  let n := n mod DI100Y in
  let n4 := n / DI4Y in
  let n := n mod DI4Y in
  let n1 := n / 365 in
  let n := n mod 365 in
  let y := n400 * 400 + 1 + n100 * 100 + n4 * 4 + n1 in
  if (n1 =? 4) || (n100 =? 4)
  then (y - 1, 12, 31)
  else
    let leapyear := (n1 =? 3) && (negb (n4 =? 24) || (n100 =? 3)) in
    let (m, d) := month_day leapyear n in
    (y, m, d).

(** The broken-down UTC time of [t] whole seconds since the epoch. *)
Definition gmtime (t : Z) : datetime :=
  let days := t / 86400 in
  let secs := t mod 86400 in
  let '(y, m, d) := ord2ymd (days + EPOCH_ORDINAL) in
  mkDatetime y m d (secs / 3600) (secs mod 3600 / 60) (secs mod 60) 0.

(** Seconds since the epoch of a calendar time read as UTC: what
    "the UTC calendar time corresponding to [t] seconds" refers to. *)
Definition seconds_since_epoch (dt : datetime) : Z :=
  (ymd2ord (year dt) (month dt) (day dt) - EPOCH_ORDINAL) * 86400
  + hour dt * 3600 + minute dt * 60 + second dt.

(** The fields of a [datetime] are those of a real calendar time. *)
Definition valid_datetime (dt : datetime) : Prop :=
  MINYEAR <= year dt <= MAXYEAR
  /\ 1 <= month dt <= 12
  /\ 1 <= day dt <= days_in_month (year dt) (month dt)
  /\ 0 <= hour dt < 24
  /\ 0 <= minute dt < 60
  /\ 0 <= second dt < 60
  /\ microsecond dt = 0.

(** First and last second of the years [MINYEAR] to [MAXYEAR]. *)
Definition MIN_TIMESTAMP : Z := -62135596800.
Definition MAX_TIMESTAMP : Z := 253402300799.

(** Range of the C library's [gmtime] (64-bit [time_t], 32-bit
    [tm_year], glibc). *)
Definition MIN_GMTIME : Z := -67768040609740800.
Definition MAX_GMTIME : Z := 67768036191676799.

(** Range of [time_t]. *)
Definition MIN_TIME_T : Z := - 2 ^ 63.
Definition MAX_TIME_T : Z := 2 ^ 63 - 1.

End Calendar.

(** [datetime.utcfromtimestamp(t)] for an [int]: [OverflowError] outside
    [time_t], [OSError] where [gmtime] fails, [ValueError] for a year
    outside [MINYEAR..MAXYEAR], the broken-down time otherwise. *)
Definition utcfromtimestamp_int (t : Z) : exn + datetime :=
  if (t <? Calendar.MIN_TIME_T) || (Calendar.MAX_TIME_T <? t)
  then inl (raised OverflowError)
  else if (t <? Calendar.MIN_GMTIME) || (Calendar.MAX_GMTIME <? t)
  then inl (raised OSError)
  else if (t <? Calendar.MIN_TIMESTAMP) || (Calendar.MAX_TIMESTAMP <? t)
  then inl (raised ValueError)
  else inr (Calendar.gmtime t).

(* ================================================================== *)
(** * What the module imports and does not define *)

(** The tables of [common], the connection behind a websocket address, and
    the library calls whose result on unusual operands is taken as given:
    [json.loads], [Decimal] of a [list], and [utcfromtimestamp] of a
    [float] (a rounding of binary floating point). *)
Record Env : Type := mkEnv {
  (** [common.CLOSE_MESSAGES]: the frame kinds that end the session. *)
  CLOSE_MESSAGES : list WSMsgType;
  (** Names of the members of [common.ServerMessageType] other than
      [BROADCAST], none of them an alias of it. *)
  other_categories : list string;
  (** [json.loads(data)]: the decoded document or the exception raised. *)
  json_loads : ws_data -> exn + json;
  (** [Decimal(value)] for a [list]. *)
  Decimal_from_list : list json -> exn + Decimal;
  (** [datetime.utcfromtimestamp(value)] for a [float]. *)
  utcfromtimestamp_float : spec_float -> exn + datetime;
  (** [session.ws_connect(ws_addr, receive_timeout=20, heartbeat=3)]: the
      exception raised on the way to an open connection, or what each
      successive [ws.receive()] of the connection gives, a frame or an
      exception (a receive timeout, say). *)
  ws_connect : string -> exn + list (exn + WSMessage)
}.

(** Modelled from the spec: [common.ServerMessageType] is not among the
    sources; section 4.2 gives "the enumerated set of server message
    categories {Broadcast, ...other control categories}", and the wire
    name of the broadcast category is BROADCAST (section 6). *)
Inductive ServerMessageType : Type :=
| BROADCAST
| CATEGORY (name : string).

Definition ServerMessageType_eqb (a b : ServerMessageType) : bool :=
  match a, b with
  | BROADCAST, BROADCAST => true
  | CATEGORY x, CATEGORY y => String.eqb x y
  | _, _ => false
  end.

(** [common.ServerMessageType[name]]: the member of that name; [KeyError]
    for any other hashable value, [TypeError] for an unhashable one. *)
Definition ServerMessageType_getitem (E : Env) (name : json)
  : exn + ServerMessageType :=
  match name with
  | JStr s =>
      if String.eqb s "BROADCAST" then inr BROADCAST
      else if existsb (String.eqb s) (other_categories E) then inr (CATEGORY s)
      else inl (raised KeyError)
  | JArray _ | JObject _ => inl (raised TypeError)
  | _ => inl (raised KeyError)
  end.

(** Modelled from the spec: [exceptions.handle_close_message] is not among
    the sources; by section 4.1, for a frame of a close, error or
    unsupported-control kind "the decoder fails with ConnectionClosed
    (carrying the close code/reason)". [Some e]: the call raises [e];
    [None]: it returns. *)
Definition handle_close_message (msg : WSMessage) : option exn :=
  Some (mkExn (Class ConnectionClosed) (ArgClose (msg_data msg) (msg_extra msg))).

(* ================================================================== *)
(** * Operations on decoded values *)

(** [obj[key]] for a [str] key. *)
Definition getitem (obj : json) (key : string) : exn + json :=
  match obj with
  | JObject members =>
      match dict_lookup key members with
      | Some v => inr v
      | None => inl (raised KeyError)
      end
  | _ => inl (raised TypeError)
  end.

(** [obj[0]]. A [dict] of [json.loads] has no [int] key. *)
Definition getitem0 (obj : json) : exn + json :=
  match obj with
  | JArray (x :: _) => inr x
  | JArray [] => inl (raised IndexError)
  | JStr (String c _) => inr (JStr (String c EmptyString))
  | JStr EmptyString => inl (raised IndexError)
  | JObject _ => inl (raised KeyError)
  | _ => inl (raised TypeError)
  end.

(** A value handed to a callback: part of the payload, or the built-in
    class [dict] itself. *)
Inductive pyobj : Type :=
| Value (v : json)
| DictClass.

(** [obj.get(key, dict)]: the default is the class [dict], not an
    instance of it. *)
Definition get_or_dict (obj : json) (key : string) : exn + pyobj :=
  match obj with
  | JObject members =>
      match dict_lookup key members with
      | Some v => inr (Value v)
      | None => inr DictClass
      end
  | _ => inl (raised AttributeError)
  end.

(** [Decimal(value)]. *)
Definition Decimal_new (E : Env) (value : json) : exn + Decimal :=
  match value with
  | JStr s => Decimal_from_str s
  | JInt n => inr (Decimal_from_int n)
  | JBool b => inr (Decimal_from_int (if b then 1 else 0))
  | JFloat f => inr (Decimal_from_float f)
  | JArray l => Decimal_from_list E l
  | JNull | JObject _ => inl (raised TypeError)
  end.

(** [datetime.utcfromtimestamp(value)]. *)
Definition utcfromtimestamp (E : Env) (value : json) : exn + datetime :=
  match value with
  | JInt t => utcfromtimestamp_int t
  | JBool b => utcfromtimestamp_int (if b then 1 else 0)
  | JFloat f => utcfromtimestamp_float E f
  | JNull | JStr _ | JArray _ | JObject _ => inl (raised TypeError)
  end.

(* ================================================================== *)
(** * Callbacks and what the loop does with them *)

(** What awaiting the market-data callback comes to: it returns, leaving
    the payload (the very [dict] it was handed) as [payload_after], or it
    raises. *)
Inductive awaited : Type :=
| Returns (payload_after : json)
| Raises (e : exn).

Definition MarketDataCallback : Type := json -> awaited.

(** The order-book and trades callbacks are coroutine functions: calling
    one only creates the coroutine that [asyncio.ensure_future] hands to
    the event loop, so nothing of its body is visible to the reader. *)
Inductive coroutine_function : Type := CoroutineFunction.

Definition OrderBookCallback : Type := coroutine_function.
Definition TradesCallback : Type := coroutine_function.

(** Callback activity, in program order. *)
Inductive event : Type :=
| Awaited_market_data (payload : json)
| Scheduled_order_book (current_order_id trade_pair : json)
                       (buy_levels sell_levels : pyobj)
| Scheduled_trades (time : datetime) (current_order_id trade_pair : json)
                   (amount price : Decimal).

(** A computation: the events so far and the exception or the value. *)
Definition M (A : Type) : Type := list event * (exn + A).

Definition ret {A} (a : A) : M A := ([], inr a).
Definition raise {A} (e : exn) : M A := ([], inl e).
Definition lift {A} (r : exn + A) : M A := ([], r).
Definition emit (ev : event) : M unit := ([ev], inr tt).

Definition bind {A B} (m : M A) (f : A -> M B) : M B :=
  match m with
  | (evs, inl e) => (evs, inl e)
  | (evs, inr a) => let (evs', r) := f a in (evs ++ evs', r)
  end.

Notation "x <- m ;; k" := (bind m (fun x => k))
  (at level 61, m at next level, right associativity).
Notation "m ;;; k" := (bind m (fun _ => k))
  (at level 61, right associativity).

(* ================================================================== *)
(** * receive_msg, reader_loop, run *)

(** How far the loop got on the frames it was given. *)
Inductive outcome : Type :=
| Receiving          (* suspended in [ws.receive], every frame handled *)
| Raised (e : exn).  (* ended by this exception *)

(** [receive_msg(ws)], given what [ws.receive] gave. *)
Definition receive_msg (E : Env) (received : exn + WSMessage) : exn + json :=
  match received with
  | inl e => inl e
  | inr msg =>
      if existsb (WSMsgType_eqb (msg_type msg)) (CLOSE_MESSAGES E)
      then match handle_close_message msg with
           | Some e => inl e
           | None => inl (mkExn (Class UnsupportedMessage) (ArgFrame msg))
           end
      else json_loads E (msg_data msg)
  end.

Section Reader.

Variable E : Env.
Variable market_data_callback : option MarketDataCallback.
Variable order_book_callback : option OrderBookCallback.
Variable trades_callback : option TradesCallback.

(** [await market_data_callback(payload)], when one is registered. *)
Definition await_market_data (payload : json) : M json :=
  match market_data_callback with
  | Some callback =>
      emit (Awaited_market_data payload) ;;;
      match callback payload with
      | Returns payload_after => ret payload_after
      | Raises e => raise e
      end
  | None => ret payload
  end.

(** The branch on [payload['@type']]. *)
Definition dispatch (payload : json) : M unit :=
  type <- lift (getitem payload "@type") ;;
  if py_eq_str type "OrderBookAgg" then
    match order_book_callback with
    | Some _ =>
        current_order_id <- lift (getitem payload "current_order_id") ;;
        trade_pair <- lift (getitem payload "trade_pair") ;;
        buy_levels <- lift (get_or_dict payload "buy_levels") ;;
        sell_levels <- lift (get_or_dict payload "sell_levels") ;;
        emit (Scheduled_order_book current_order_id trade_pair
                                   buy_levels sell_levels)
    | None => ret tt
    end
  else
    type <- lift (getitem payload "@type") ;;
    if py_eq_str type "AnonymousTrade" then
      match trades_callback with
      | Some _ =>
          times <- lift (getitem payload "time") ;;
          time0 <- lift (getitem0 times) ;;
          time <- lift (utcfromtimestamp E time0) ;;
          current_order_id <- lift (getitem payload "current_order_id") ;;
          trade_pair <- lift (getitem payload "trade_pair") ;;
          amount_str <- lift (getitem payload "amount") ;;
          amount <- lift (Decimal_new E amount_str) ;;
          price_str <- lift (getitem payload "price") ;;
          price <- lift (Decimal_new E price_str) ;;
          emit (Scheduled_trades time current_order_id trade_pair amount price)
      | None => ret tt
      end
    else raise (raised UnsupportedMessageType).

(** The body of the [try]. *)
Definition try_body (msg : json) : M unit :=
  response_type <- lift (getitem msg "response_type") ;;
  message_type <- lift (ServerMessageType_getitem E response_type) ;;
  if negb (ServerMessageType_eqb message_type BROADCAST)
  then raise (raised UnsupportedMessageType)
  else
    payload <- lift (getitem msg "data") ;;
    payload <- await_market_data payload ;;
    dispatch payload.

(** [except (KeyError, ValueError, exceptions.UnsupportedMessageType)]. *)
Definition handled (e : exn) : bool :=
  isinstance e KeyError || isinstance e ValueError
  || isinstance e UnsupportedMessageType.

(** The [except] clause around a body: a handled exception is replaced
    by [CryptologyError('failed to decode data')], any other passes. *)
Definition try_except (body : M unit) : M unit :=
  match body with
  | (evs, inl e) => (evs, inl (if handled e then decode_failure else e))
  | (evs, inr tt) => (evs, inr tt)
  end.

(** One turn of the loop after [receive_msg]: the [try] statement. *)
Definition handle_msg (msg : json) : M unit :=
  try_except (try_body msg).

(** [reader_loop(ws, ...)] on what the successive [ws.receive] calls
    give. *)
Fixpoint reader_loop (ws : list (exn + WSMessage)) : list event * outcome :=
  match ws with
  | [] => ([], Receiving)
  | received :: rest =>
      match receive_msg E received with
      | inl e => ([], Raised e)
      | inr msg =>
          match handle_msg msg with
          | (evs, inl e) => (evs, Raised e)
          | (evs, inr _) =>
              let (evs', o) := reader_loop rest in (evs ++ evs', o)
          end
      end
  end.

(** [run(ws_addr=..., ...)]: the two context managers let every
    exception through. *)
Definition run (ws_addr : string) : list event * outcome :=
  match ws_connect E ws_addr with
  | inl e => ([], Raised e)
  | inr ws => reader_loop ws
  end.

End Reader.

(* ================================================================== *)
(** * Vocabulary of the statements *)

(** [msg] is a Broadcast envelope with payload [payload]: a decoded JSON
    object whose [response_type] is the string BROADCAST and whose [data]
    is [payload]. *)
Definition broadcast_envelope (msg payload : json) : Prop :=
  exists members,
    msg = JObject members
    /\ dict_lookup "response_type" members = Some (JStr "BROADCAST")
    /\ dict_lookup "data" members = Some payload.

(** The market-data step lets the turn go on: no callback is registered
    ([payload_after] is then [payload]), or the registered one returns and
    leaves the payload as [payload_after]. A callback that does not touch
    its argument has [payload_after = payload]. *)
Definition market_data_returns (callback : option MarketDataCallback)
  (payload payload_after : json) : Prop :=
  match callback with
  | None => payload_after = payload
  | Some f => f payload = Returns payload_after
  end.

(** The events of the market-data step that returns. *)
Definition market_data_events (callback : option MarketDataCallback)
  (payload : json) : list event :=
  match callback with
  | None => []
  | Some _ => [Awaited_market_data payload]
  end.

Definition is_market_data_event (ev : event) : bool :=
  match ev with
  | Awaited_market_data _ => true
  | _ => false
  end.

(** Computations without a market-data event. *)
Definition no_market_data {A} (m : M A) : Prop :=
  forallb (fun ev => negb (is_market_data_event ev)) (fst m) = true.

(** A decimal numeral as the wire writes a price or an amount: an
    optional sign, integer digits, after a point fractional digits, and
    an optional exponent part (the letter E in either case, an optional
    sign and digits), as in 30000.25, -.5, 1E-8 or 2.50e+3. *)
Record exponent_part : Type := mkExponent {
  exp_upper : bool;                (* [true]: written E; [false]: written e *)
  exp_sign : option bool;          (* [Some true]: a minus; [Some false]: a plus *)
  exp_digits : list ascii
}.

Record numeral : Type := mkNumeral {
  num_sign : option bool;          (* [Some true]: a minus; [Some false]: a plus *)
  num_int : list ascii;
  num_frac : option (list ascii);  (* [None]: no point *)
  num_exp : option exponent_part   (* [None]: no exponent part *)
}.

Definition sign_chars (sign : option bool) : list ascii :=
  match sign with
  | Some true => ["-"%char]
  | Some false => ["+"%char]
  | None => []
  end.

(** The tail of a numeral after its integer digits. *)
Definition point_and_frac (n : numeral) : list ascii :=
  match num_frac n with
  | Some fs => "."%char :: fs
  | None => []
  end.

Definition exponent_chars (x : option exponent_part) : list ascii :=
  match x with
  | Some p =>
      (if exp_upper p then "E"%char else "e"%char)
        :: sign_chars (exp_sign p) ++ exp_digits p
  | None => []
  end.

Definition numeral_chars (n : numeral) : list ascii :=
  sign_chars (num_sign n) ++ num_int n ++ point_and_frac n
  ++ exponent_chars (num_exp n).

Definition numeral_string (n : numeral) : string :=
  string_of_list_ascii (numeral_chars n).

Definition frac_digits (n : numeral) : list ascii :=
  match num_frac n with
  | Some fs => fs
  | None => []
  end.

(** Only digits where digits belong, at least one of them in the
    number and, if there is an exponent part, in it. *)
Definition well_formed_numeral (n : numeral) : Prop :=
  forallb DecimalSyntax.is_digit (num_int n) = true
  /\ forallb DecimalSyntax.is_digit (frac_digits n) = true
  /\ num_int n ++ frac_digits n <> []
  /\ match num_exp n with
     | Some p =>
         forallb DecimalSyntax.is_digit (exp_digits p) = true
         /\ exp_digits p <> []
     | None => True
     end.

(** [body] is [chars] with underscores put in anywhere. *)
Inductive underscored : list ascii -> list ascii -> Prop :=
| underscored_nil : underscored [] []
| underscored_skip (body chars : list ascii) :
    underscored body chars -> underscored ("_"%char :: body) chars
| underscored_keep (c : ascii) (body chars : list ascii) :
    c <> "_"%char ->
    underscored body chars -> underscored (c :: body) (c :: chars).

(** The string [s] is a decimal string that reads as the numeral [n]:
    the characters of a well-formed [n], possibly with underscores
    between or around them and with white space before and after, all of
    which [Decimal] passes over. *)
Definition decimal_string (s : string) (n : numeral) : Prop :=
  well_formed_numeral n
  /\ exists lead body trail,
       list_ascii_of_string s = lead ++ body ++ trail
       /\ forallb DecimalSyntax.is_space lead = true
       /\ forallb DecimalSyntax.is_space trail = true
       /\ underscored body (numeral_chars n).

(** Positional value of a string of digits. *)
Fixpoint digits_value (ds : list ascii) : Z :=
  match ds with
  | [] => 0
  | c :: r =>
      Z.of_N (DecimalSyntax.digit_value c) * 10 ^ Z.of_nat (List.length r)
      + digits_value r
  end.

(** The exponent a numeral writes, [0] without an exponent part. *)
Definition exponent_value (x : option exponent_part) : Z :=
  match x with
  | Some p =>
      match exp_sign p with
      | Some true => - digits_value (exp_digits p)
      | _ => digits_value (exp_digits p)
      end
  | None => 0
  end.

(** Ten to the power [e], as a rational. *)
Definition power_of_ten (e : Z) : Q :=
  if 0 <=? e then Qmake (10 ^ e) 1 else Qmake 1 (Z.to_pos (10 ^ (- e))).

(** The rational number a numeral denotes: integer part plus fractional
    part over the power of ten of its length, times ten to the exponent,
    with the sign. *)
Definition numeral_value (n : numeral) : Q :=
  let magnitude :=
    ((Qmake (digits_value (num_int n)) 1
      + Qmake (digits_value (frac_digits n))
              (Z.to_pos (10 ^ Z.of_nat (List.length (frac_digits n)))))
     * power_of_ten (exponent_value (num_exp n)))%Q in
  match num_sign n with
  | Some true => (- magnitude)%Q
  | _ => magnitude
  end.

(** The [Decimal] [d] stands for exactly the number [n] denotes. *)
Definition exact_decimal (d : Decimal) (n : numeral) : Prop :=
  exists q, Decimal_value d = Some q /\ (q == numeral_value n)%Q.

(** The exponent of the [Decimal] a numeral is converted to: the written
    exponent less the number of fractional digits. *)
Definition numeral_exponent (n : numeral) : Z :=
  exponent_value (num_exp n) - Z.of_nat (List.length (frac_digits n)).

(** The numeral lies within what a [Decimal] can hold: at most
    [MAX_PREC] digits in the coefficient, an exponent not below
    [MIN_ETINY], and an adjusted exponent not above [MAX_EMAX]. *)
Definition representable (n : numeral) : Prop :=
  let digits :=
    DecimalSyntax.coefficient_digits (num_int n ++ frac_digits n) in
  digits <= DecimalSyntax.MAX_PREC
  /\ DecimalSyntax.MIN_ETINY <= numeral_exponent n
  /\ numeral_exponent n + digits - 1 <= DecimalSyntax.MAX_EMAX.

(** The characters of a numeral: digits, signs, the point and the
    letter of the exponent. *)
Definition numeral_char (c : ascii) : bool :=
  DecimalSyntax.is_digit c
  || Ascii.eqb c "+" || Ascii.eqb c "-" || Ascii.eqb c "."
  || Ascii.eqb c "e" || Ascii.eqb c "E".

(** The [Decimal] a numeral is converted to. *)
Definition Decimal_of_numeral (n : numeral) : Decimal :=
  DFinite match num_sign n with Some true => true | _ => false end
          (DecimalSyntax.int_of_digits (num_int n ++ frac_digits n))
          (numeral_exponent n).

(** The calendar time [time] exists and lies [t] seconds after the
    epoch. *)
Definition calendar_time_of (time : datetime) (t : Z) : Prop :=
  Calendar.valid_datetime time /\ Calendar.seconds_since_epoch time = t.

(** What [month_day] must satisfy on day [n] of a year. *)
Definition month_day_ok (leapyear : bool) (n : Z) : bool :=
  let (m, d) := Calendar.month_day leapyear n in
  (1 <=? m) && (m <=? 12) && (1 <=? d)
  && (d <=? Calendar.DAYS_IN_MONTH m + (if (m =? 2) && leapyear then 1 else 0))
  && (Calendar.DAYS_BEFORE_MONTH m
      + (if (2 <? m) && leapyear then 1 else 0) + d =? n + 1).

(* ================================================================== *)
(** * An environment and inputs for the examples *)

Module Examples.

(** JSON text written with apostrophes for the double quotes. *)
Definition json_text (s : string) : string :=
  string_of_list_ascii
    (map (fun c => if Ascii.eqb c "'" then ascii_of_nat 34 else c)
         (list_ascii_of_string s)).

(** The trade envelope of section 8. *)
Definition trade_text : string :=
  json_text "{'response_type':'BROADCAST','data':{'@type':'AnonymousTrade','time':[1700000000],'current_order_id':42,'trade_pair':'BTC_USD','amount':'1.5','price':'30000.25'}}".

Definition trade_payload : json :=
  JObject [("@type", JStr "AnonymousTrade");
           ("time", JArray [JInt 1700000000]);
           ("current_order_id", JInt 42);
           ("trade_pair", JStr "BTC_USD");
           ("amount", JStr "1.5");
           ("price", JStr "30000.25")].

Definition trade_envelope : json :=
  JObject [("response_type", JStr "BROADCAST"); ("data", trade_payload)].

(** An order-book update without [buy_levels] and [sell_levels]. *)
Definition bare_order_book_text : string :=
  json_text "{'response_type':'BROADCAST','data':{'@type':'OrderBookAgg','current_order_id':7,'trade_pair':'BTC_USD'}}".

Definition bare_order_book_payload : json :=
  JObject [("@type", JStr "OrderBookAgg");
           ("current_order_id", JInt 7);
           ("trade_pair", JStr "BTC_USD")].

Definition bare_order_book_envelope : json :=
  JObject [("response_type", JStr "BROADCAST"); ("data", bare_order_book_payload)].

(** A trade whose [amount] is not a number. *)
Definition bad_amount_text : string :=
  json_text "{'response_type':'BROADCAST','data':{'@type':'AnonymousTrade','time':[1700000000],'current_order_id':42,'trade_pair':'BTC_USD','amount':'abc','price':'30000.25'}}".

Definition bad_amount_payload : json :=
  JObject [("@type", JStr "AnonymousTrade");
           ("time", JArray [JInt 1700000000]);
           ("current_order_id", JInt 42);
           ("trade_pair", JStr "BTC_USD");
           ("amount", JStr "abc");
           ("price", JStr "30000.25")].

Definition bad_amount_envelope : json :=
  JObject [("response_type", JStr "BROADCAST"); ("data", bad_amount_payload)].

(** An envelope of another category, and one of an unknown payload type. *)
Definition control_text : string :=
  json_text "{'response_type':'MESSAGE','data':{}}".

Definition control_envelope : json :=
  JObject [("response_type", JStr "MESSAGE"); ("data", JObject [])].

Definition ticker_text : string :=
  json_text "{'response_type':'BROADCAST','data':{'@type':'Ticker'}}".

Definition ticker_payload : json := JObject [("@type", JStr "Ticker")].

Definition ticker_envelope : json :=
  JObject [("response_type", JStr "BROADCAST"); ("data", ticker_payload)].

(** [json.loads] on the documents above; any other text is taken to be
    malformed. *)
Definition example_json_loads (data : ws_data) : exn + json :=
  match data with
  | DataStr s | DataBytes s =>
      if String.eqb s trade_text then inr trade_envelope
      else if String.eqb s bare_order_book_text then inr bare_order_book_envelope
      else if String.eqb s bad_amount_text then inr bad_amount_envelope
      else if String.eqb s control_text then inr control_envelope
      else if String.eqb s ticker_text then inr ticker_envelope
      else inl (raised JSONDecodeError)
  | _ => inl (raised TypeError)
  end.

(** An environment whose connection delivers [frames]. *)
Definition example_env (frames : list (exn + WSMessage)) : Env :=
  mkEnv [CLOSE; CLOSING; CLOSED; ERROR]
        ["MESSAGE"; "ERROR"]
        example_json_loads
        (fun _ => inl (raised ValueError))
        (fun _ => inl (raised ValueError))
        (fun _ => inr frames).

Definition text_frame (s : string) : exn + WSMessage :=
  inr (mkWSMessage TEXT (DataStr s) None).

Definition close_frame : WSMessage :=
  mkWSMessage CLOSE (DataInt 1000) (Some "bye").

(** Callbacks: one that returns, ones that raise. *)
Definition quiet_callback : MarketDataCallback := fun payload => Returns payload.

Definition raising_callback (e : exn) : MarketDataCallback := fun _ => Raises e.

End Examples.

(* ================================================================== *)
(** * Further vocabulary: the stream of frames, setup.py *)


(** A computation without callback activity. *)
Definition silent {A} (m : M A) : Prop := fst m = [].


(** What [ws.receive] gave is decoded and handled without exception. *)
Definition turn_completes (E : Env) (md : option MarketDataCallback)
  (ob : option OrderBookCallback) (tr : option TradesCallback)
  (received : exn + WSMessage) : Prop :=
  exists msg,
    receive_msg E received = inr msg
    /\ snd (handle_msg E md ob tr msg) = inr tt.

Module Setup.

(** setup.py, the version guard. *)

(** An element of [sys.version_info]: the three numbers and the serial
    are [int]s, the release level is a [str]. *)
Inductive element : Type :=
| Int (n : Z)
| Str (s : string).

Definition element_eqb (a b : element) : bool :=
  match a, b with
  | Int x, Int y => x =? y
  | Str x, Str y => String.eqb x y
  | _, _ => false
  end.

(** [a < b] on elements; [None] stands for the [TypeError] of ordering an
    [int] against a [str]. *)
Definition element_lt (a b : element) : option bool :=
  match a, b with
  | Int x, Int y => Some (x <? y)
  | Str x, Str y => Some (match String.compare x y with Lt => true | _ => false end)
  | _, _ => None
  end.

(** [a < b] on tuples: the first pair of unequal elements decides; when
    one tuple is a prefix of the other, the shorter is the smaller. *)
Fixpoint tuple_lt (a b : list element) : option bool :=
  match a, b with
  | _, [] => Some false
  | [], _ :: _ => Some true
  | x :: a', y :: b' =>
      if element_eqb x y then tuple_lt a' b' else element_lt x y
  end.

(** [sys.version_info]. *)
Definition version_info (major minor micro : Z) (releaselevel : string)
  (serial : Z) : list element :=
  [Int major; Int minor; Int micro; Str releaselevel; Int serial].

(** How the script goes on after its first statement. *)
Inductive guard : Type :=
| RaisesImportError   (* the [raise ImportError(...)] of the guard *)
| CallsSetup          (* [setup(...)] is reached *)
| RaisesTypeError.    (* the comparison itself fails *)

(** [if sys.version_info < (3, 6): raise ImportError(...)]. *)
Definition version_guard (info : list element) : guard :=
  match tuple_lt info [Int 3; Int 6] with
  | Some true => RaisesImportError
  | Some false => CallsSetup
  | None => RaisesTypeError
  end.

End Setup.

(* ================================================================== *)
(** * Laws of the computations *)

Lemma bind_value {A B} (a : A) (f : A -> M B) : bind (lift (inr a)) f = f a.
Proof. unfold bind, lift. destruct (f a). reflexivity. Qed.

Lemma bind_exception {A B} (e : exn) (f : A -> M B) :
  bind (lift (inl e)) f = raise e.
Proof. reflexivity. Qed.

Lemma bind_ret {A B} (a : A) (f : A -> M B) : bind (ret a) f = f a.
Proof. exact (bind_value a f). Qed.

Lemma bind_events {A B} (evs : list event) (a : A) (f : A -> M B) :
  bind (evs, inr a) f = (evs ++ fst (f a), snd (f a)).
Proof. unfold bind. destruct (f a). reflexivity. Qed.

Lemma no_market_data_lift {A} (r : exn + A) : no_market_data (lift r).
Proof. reflexivity. Qed.

Lemma no_market_data_ret {A} (a : A) : no_market_data (ret a).
Proof. reflexivity. Qed.

Lemma no_market_data_raise {A} (e : exn) : no_market_data (@raise A e).
Proof. reflexivity. Qed.

Lemma no_market_data_emit (ev : event) :
  is_market_data_event ev = false -> no_market_data (emit ev).
Proof. unfold no_market_data. simpl. now intros ->. Qed.

Lemma no_market_data_bind {A B} (m : M A) (f : A -> M B) :
  no_market_data m -> (forall a, no_market_data (f a)) ->
  no_market_data (bind m f).
Proof.
  unfold no_market_data, bind. destruct m as [evs [e | a]]; simpl; intros Hm Hf.
  - exact Hm.
  - specialize (Hf a). destruct (f a) as [evs' r]. simpl in *.
    rewrite forallb_app. now rewrite Hm, Hf.
Qed.

(* ================================================================== *)
(** * The loop, frame by frame *)

Lemma WSMsgType_eqb_eq (a b : WSMsgType) : WSMsgType_eqb a b = true <-> a = b.
Proof. destruct a, b; simpl; split; intro H; try reflexivity; discriminate H. Qed.

Lemma close_kind_In (t : WSMsgType) (kinds : list WSMsgType) :
  existsb (WSMsgType_eqb t) kinds = true <-> In t kinds.
Proof.
  rewrite existsb_exists. split.
  - intros [k [Hin Heq]]. apply WSMsgType_eqb_eq in Heq. now subst.
  - intro Hin. exists t. split; [assumption | now apply WSMsgType_eqb_eq].
Qed.

Lemma close_kind_not_In (t : WSMsgType) (kinds : list WSMsgType) :
  ~ In t kinds -> existsb (WSMsgType_eqb t) kinds = false.
Proof.
  intro Hn. destruct (existsb (WSMsgType_eqb t) kinds) eqn:Hex; [| reflexivity].
  apply close_kind_In in Hex. contradiction.
Qed.

Section LoopFacts.

Variable E : Env.
Variable market_data_callback : option MarketDataCallback.
Variable order_book_callback : option OrderBookCallback.
Variable trades_callback : option TradesCallback.

Local Abbreviation loop :=
  (reader_loop E market_data_callback order_book_callback trades_callback).
Local Abbreviation handle :=
  (handle_msg E market_data_callback order_book_callback trades_callback).

(** Once the loop has ended, frames that follow change nothing. *)
Lemma reader_loop_raised_app pre rest evs e :
  loop pre = (evs, Raised e) -> loop (pre ++ rest) = (evs, Raised e).
Proof.
  revert evs. induction pre as [| r pre IH]; intros evs H; simpl in *.
  - discriminate H.
  - destruct (receive_msg E r) as [e0 | msg]; [exact H |].
    destruct (handle_msg _ _ _ _ msg) as [evs0 [e0 | u]]; [exact H |].
    destruct (reader_loop _ _ _ _ pre) as [evs1 o1] eqn:Hpre.
    injection H as Hevs Ho. subst o1.
    rewrite (IH evs1 eq_refl). now subst evs.
Qed.

(** While the loop is receiving, it goes on with the frames that follow. *)
Lemma reader_loop_receiving_app pre rest evs :
  loop pre = (evs, Receiving) ->
  loop (pre ++ rest) = (evs ++ fst (loop rest), snd (loop rest)).
Proof.
  revert evs. induction pre as [| r pre IH]; intros evs H; simpl in *.
  - injection H as Hevs. subst evs. simpl. now destruct (reader_loop _ _ _ _ rest).
  - destruct (receive_msg E r) as [e0 | msg]; [discriminate H |].
    destruct (handle_msg _ _ _ _ msg) as [evs0 [e0 | u]]; [discriminate H |].
    destruct (reader_loop _ _ _ _ pre) as [evs1 o1] eqn:Hpre.
    injection H as Hevs Ho. subst o1.
    rewrite (IH evs1 eq_refl). subst evs. now rewrite app_assoc.
Qed.

(** A frame that [receive_msg] refuses ends the loop with that exception,
    whatever follows. *)
Lemma reader_loop_receive_fails pre received rest evs e :
  loop pre = (evs, Receiving) ->
  receive_msg E received = inl e ->
  loop (pre ++ received :: rest) = (evs, Raised e).
Proof.
  intros Hpre Hrecv. rewrite (reader_loop_receiving_app _ _ _ Hpre).
  simpl. rewrite Hrecv. simpl. now rewrite app_nil_r.
Qed.

(** A decoded message whose handling raises ends the loop with that
    exception, whatever follows. *)
Lemma reader_loop_handle_fails pre received rest evs msg evs' e :
  loop pre = (evs, Receiving) ->
  receive_msg E received = inr msg ->
  handle msg = (evs', inl e) ->
  loop (pre ++ received :: rest) = (evs ++ evs', Raised e).
Proof.
  intros Hpre Hrecv Hh. rewrite (reader_loop_receiving_app _ _ _ Hpre).
  simpl. rewrite Hrecv, Hh. reflexivity.
Qed.

(** A decoded message handled without exception leaves the loop
    receiving. *)
Lemma reader_loop_handle_continues pre received evs msg evs' :
  loop pre = (evs, Receiving) ->
  receive_msg E received = inr msg ->
  handle msg = (evs', inr tt) ->
  loop (pre ++ [received]) = (evs ++ evs', Receiving).
Proof.
  intros Hpre Hrecv Hh. rewrite (reader_loop_receiving_app _ _ _ Hpre).
  simpl. rewrite Hrecv, Hh. simpl. now rewrite app_nil_r.
Qed.

End LoopFacts.

(* ================================================================== *)
(** * One turn of the loop on a Broadcast envelope *)

Section TurnFacts.

Variable E : Env.
Variable market_data_callback : option MarketDataCallback.
Variable order_book_callback : option OrderBookCallback.
Variable trades_callback : option TradesCallback.

Local Abbreviation body :=
  (try_body E market_data_callback order_book_callback trades_callback).
Local Abbreviation handle :=
  (handle_msg E market_data_callback order_book_callback trades_callback).
Local Abbreviation dispatch' :=
  (dispatch E order_book_callback trades_callback).

(** On a Broadcast envelope the body of the [try] is the market-data step
    followed by the branch on the payload type. *)
Lemma try_body_broadcast msg payload :
  broadcast_envelope msg payload ->
  body msg =
  (payload_after <- await_market_data market_data_callback payload ;;
   dispatch' payload_after).
Proof.
  intros [members [-> [Hrt Hdata]]].
  unfold try_body, getitem. rewrite Hrt, Hdata.
  rewrite bind_value. simpl ServerMessageType_getitem.
  rewrite bind_value. cbn [negb ServerMessageType_eqb].
  now rewrite bind_value.
Qed.

(** The market-data step that returns. *)
Lemma await_market_data_returns payload payload_after :
  market_data_returns market_data_callback payload payload_after ->
  await_market_data market_data_callback payload
  = (market_data_events market_data_callback payload, inr payload_after).
Proof.
  unfold market_data_returns, await_market_data, market_data_events.
  destruct market_data_callback as [f |]; intro H.
  - simpl. now rewrite H.
  - now subst.
Qed.

(** The turn on a Broadcast envelope whose market-data step returns. *)
Lemma handle_broadcast_returns msg payload payload_after :
  broadcast_envelope msg payload ->
  market_data_returns market_data_callback payload payload_after ->
  handle msg =
  (market_data_events market_data_callback payload
     ++ fst (try_except (dispatch' payload_after)),
   snd (try_except (dispatch' payload_after))).
Proof.
  intros Hb Hmd. unfold handle_msg.
  rewrite (try_body_broadcast _ _ Hb), (await_market_data_returns _ _ Hmd).
  unfold bind. destruct (dispatch' payload_after) as [evs [e | []]]; reflexivity.
Qed.

(** The branch on the payload type never awaits the market-data
    callback. *)
Lemma dispatch_no_market_data payload :
  no_market_data (dispatch' payload).
Proof.
  unfold dispatch.
  repeat first
    [ apply no_market_data_lift
    | apply no_market_data_ret
    | apply no_market_data_raise
    | apply no_market_data_emit; reflexivity
    | apply no_market_data_bind; [| intro]
    | match goal with
      | |- no_market_data (if ?b then _ else _) => destruct b
      | |- no_market_data (match ?c with Some _ => _ | None => _ end) => destruct c
      end ].
Qed.

End TurnFacts.

(* ================================================================== *)
(** * The calendar arithmetic *)

Module CalendarFacts.
Import Calendar.

(** A property checked on every index below a bound holds below it. *)
Lemma forallb_range (f : Z -> bool) (bound : nat) :
  forallb f (map Z.of_nat (seq 0 bound)) = true ->
  forall n, 0 <= n < Z.of_nat bound -> f n = true.
Proof.
  intros Hall n Hn. rewrite forallb_forall in Hall. apply Hall.
  apply in_map_iff. exists (Z.to_nat n). split; [lia |].
  apply in_seq. lia.
Qed.

Lemma month_day_spec (leapyear : bool) (n : Z) :
  0 <= n < 365 + (if leapyear then 1 else 0) ->
  forall m d, month_day leapyear n = (m, d) ->
  1 <= m <= 12
  /\ 1 <= d <= DAYS_IN_MONTH m + (if (m =? 2) && leapyear then 1 else 0)
  /\ DAYS_BEFORE_MONTH m + (if (2 <? m) && leapyear then 1 else 0) + d = n + 1.
Proof.
  intros Hn m d Hmd.
  assert (Hok : month_day_ok leapyear n = true).
  { destruct leapyear.
    - apply (forallb_range (month_day_ok true) 366); [vm_compute; reflexivity | lia].
    - apply (forallb_range (month_day_ok false) 365); [vm_compute; reflexivity | lia]. }
  unfold month_day_ok in Hok. rewrite Hmd in Hok.
  rewrite !andb_true_iff in Hok.
  destruct Hok as [[[[H1 H2] H3] H4] H5].
  apply Z.leb_le in H1, H2, H3, H4. apply Z.eqb_eq in H5. lia.
Qed.

(** Days before a year written by its place in the 400-year cycle. *)
Lemma days_before_year_parts (q a b c : Z) :
  0 <= a <= 3 -> 0 <= b <= 24 -> 0 <= c <= 3 ->
  days_before_year (q * 400 + 1 + a * 100 + b * 4 + c)
  = q * 146097 + a * 36524 + b * 1461 + c * 365.
Proof.
  intros Ha Hb Hc. unfold days_before_year.
  replace (q * 400 + 1 + a * 100 + b * 4 + c - 1)
    with (q * 400 + a * 100 + b * 4 + c) by lia.
  assert (H4 : (q * 400 + a * 100 + b * 4 + c) / 4 = q * 100 + a * 25 + b)
    by (symmetry; apply (Z.div_unique _ 4 _ c); lia).
  assert (H100 : (q * 400 + a * 100 + b * 4 + c) / 100 = q * 4 + a)
    by (symmetry; apply (Z.div_unique _ 100 _ (b * 4 + c)); lia).
  assert (H400 : (q * 400 + a * 100 + b * 4 + c) / 400 = q)
    by (symmetry; apply (Z.div_unique _ 400 _ (a * 100 + b * 4 + c)); lia).
  rewrite H4, H100, H400. lia.
Qed.

Lemma is_leap_parts (q a b c : Z) :
  0 <= a <= 3 -> 0 <= b <= 24 -> 0 <= c <= 3 ->
  is_leap (q * 400 + 1 + a * 100 + b * 4 + c)
  = (c =? 3) && (negb (b =? 24) || (a =? 3)).
Proof.
  intros Ha Hb Hc. unfold is_leap.
  assert (H4 : (q * 400 + 1 + a * 100 + b * 4 + c) mod 4 = (c + 1) mod 4).
  { replace (q * 400 + 1 + a * 100 + b * 4 + c)
      with (c + 1 + (q * 100 + a * 25 + b) * 4) by lia.
    apply Z.mod_add. lia. }
  assert (H100 : (q * 400 + 1 + a * 100 + b * 4 + c) mod 100
                 = (b * 4 + c + 1) mod 100).
  { replace (q * 400 + 1 + a * 100 + b * 4 + c)
      with (b * 4 + c + 1 + (q * 4 + a) * 100) by lia.
    apply Z.mod_add. lia. }
  assert (H400 : (q * 400 + 1 + a * 100 + b * 4 + c) mod 400
                 = (a * 100 + b * 4 + c + 1) mod 400).
  { replace (q * 400 + 1 + a * 100 + b * 4 + c)
      with (a * 100 + b * 4 + c + 1 + q * 400) by lia.
    apply Z.mod_add. lia. }
  rewrite H4, H100, H400.
  assert (Hc' : c = 0 \/ c = 1 \/ c = 2 \/ c = 3) by lia.
  destruct Hc' as [-> | [-> | [-> | ->]]]; try reflexivity.
  cbn [Z.eqb Z.add Z.modulo Z.div_eucl Z.pos_div_eucl Pos.add Pos.succ andb].
  change ((3 + 1) mod 4 =? 0) with true. cbn [andb].
  destruct (Z.eqb_spec b 24) as [-> | Hb24].
  - change (24 * 4 + 3 + 1) with 100. change (100 mod 100 =? 0) with true.
    cbn [negb orb].
    assert (Ha' : a = 0 \/ a = 1 \/ a = 2 \/ a = 3) by lia.
    destruct Ha' as [-> | [-> | [-> | ->]]]; reflexivity.
  - cbn [negb orb].
    assert (Hm : (b * 4 + 3 + 1) mod 100 <> 0).
    { rewrite Z.mod_small by lia. lia. }
    apply Z.eqb_neq in Hm. rewrite Hm. reflexivity.
Qed.

Lemma days_in_month_leap (y m : Z) :
  days_in_month y m
  = DAYS_IN_MONTH m + (if (m =? 2) && is_leap y then 1 else 0).
Proof.
  unfold days_in_month. destruct (Z.eqb_spec m 2) as [-> | _]; simpl.
  - now destruct (is_leap y).
  - lia.
Qed.

(** [ord2ymd] inverts [ymd2ord] and gives a month and a day that exist. *)
Lemma ord2ymd_spec (n y m d : Z) :
  ord2ymd n = (y, m, d) ->
  ymd2ord y m d = n /\ 1 <= m <= 12 /\ 1 <= d <= days_in_month y m.
Proof.
  unfold ord2ymd, DI400Y, DI100Y, DI4Y.
  pose proof (Z.div_mod (n - 1) 146097 ltac:(lia)) as E400.
  pose proof (Z.mod_pos_bound (n - 1) 146097 ltac:(lia)) as B400.
  set (q := (n - 1) / 146097) in *. set (r := (n - 1) mod 146097) in *.
  clearbody q r.
  pose proof (Z.div_mod r 36524 ltac:(lia)) as E100.
  pose proof (Z.mod_pos_bound r 36524 ltac:(lia)) as B100.
  set (a := r / 36524) in *. set (r2 := r mod 36524) in *. clearbody a r2.
  pose proof (Z.div_mod r2 1461 ltac:(lia)) as E4.
  pose proof (Z.mod_pos_bound r2 1461 ltac:(lia)) as B4.
  set (b := r2 / 1461) in *. set (r3 := r2 mod 1461) in *. clearbody b r3.
  pose proof (Z.div_mod r3 365 ltac:(lia)) as E1.
  pose proof (Z.mod_pos_bound r3 365 ltac:(lia)) as B1.
  set (c := r3 / 365) in *. set (r4 := r3 mod 365) in *. clearbody c r4.
  assert (Ha : 0 <= a <= 4) by lia.
  assert (Hb : 0 <= b <= 24) by lia.
  assert (Hc : 0 <= c <= 4) by lia.
  rewrite days_in_month_leap. unfold ymd2ord, days_before_month.
  destruct (Z.eqb_spec c 4) as [Hc4 | Hc4]; simpl orb.
  - (* last day of a leap year that ends a 4-year cycle *)
    intro H. injection H as <- <- <-.
    assert (Hb' : 0 <= b <= 23) by lia.
    replace (q * 400 + 1 + a * 100 + b * 4 + c - 1)
      with (q * 400 + 1 + a * 100 + b * 4 + 3) by lia.
    assert (Ha' : 0 <= a <= 3) by lia.
    rewrite is_leap_parts, days_before_year_parts by lia.
    replace (b =? 24) with false by (symmetry; apply Z.eqb_neq; lia).
    simpl. lia.
  - destruct (Z.eqb_spec a 4) as [Ha4 | Ha4].
    + (* last day of a 400-year cycle *)
      intro H. injection H as <- <- <-.
      replace (q * 400 + 1 + a * 100 + b * 4 + c - 1)
        with (q * 400 + 1 + 3 * 100 + 24 * 4 + 3) by lia.
      rewrite is_leap_parts, days_before_year_parts by lia.
      simpl. lia.
    + destruct (month_day ((c =? 3) && (negb (b =? 24) || (a =? 3))) r4)
        as [m0 d0] eqn:Hmd.
      intro H. injection H as <- <- <-.
      rewrite is_leap_parts, days_before_year_parts by lia.
      apply month_day_spec in Hmd;
        [| destruct ((c =? 3) && (negb (b =? 24) || (a =? 3))); lia].
      lia.
Qed.

(** [gmtime] gives a calendar time that exists and that lies [t] seconds
    after the epoch. *)
Lemma gmtime_spec (t : Z) :
  MIN_TIMESTAMP <= t <= MAX_TIMESTAMP ->
  valid_datetime (gmtime t) /\ seconds_since_epoch (gmtime t) = t.
Proof.
  intro Ht. unfold gmtime.
  pose proof (Z.div_mod t 86400 ltac:(lia)) as Ed.
  pose proof (Z.mod_pos_bound t 86400 ltac:(lia)) as Bd.
  set (days := t / 86400) in *. set (secs := t mod 86400) in *. clearbody days secs.
  destruct (ord2ymd (days + EPOCH_ORDINAL)) as [[y m] d] eqn:Hymd.
  apply ord2ymd_spec in Hymd. destruct Hymd as [Hord [Hm Hd]].
  pose proof (Z.div_mod secs 3600 ltac:(lia)) as Eh.
  pose proof (Z.mod_pos_bound secs 3600 ltac:(lia)) as Bh.
  pose proof (Z.div_mod (secs mod 3600) 60 ltac:(lia)) as Em.
  pose proof (Z.mod_pos_bound (secs mod 3600) 60 ltac:(lia)) as Bm.
  assert (Hss : secs mod 60 = (secs mod 3600) mod 60).
  { rewrite (Z.div_mod secs 3600) at 1 by lia.
    replace (3600 * (secs / 3600) + secs mod 3600)
      with (secs mod 3600 + (secs / 3600 * 60) * 60) by lia.
    apply Z.mod_add. lia. }
  unfold valid_datetime, seconds_since_epoch; simpl.
  unfold MIN_TIMESTAMP, MAX_TIMESTAMP, EPOCH_ORDINAL, MINYEAR, MAXYEAR in *.
  assert (Hyear : 1 <= y <= 9999).
  { rewrite days_in_month_leap in Hd. unfold ymd2ord, days_before_month in Hord.
    assert (Hdbm : 0 <= DAYS_BEFORE_MONTH m + DAYS_IN_MONTH m <= 365).
    { assert (Hm' : m = 1 \/ m = 2 \/ m = 3 \/ m = 4 \/ m = 5 \/ m = 6 \/ m = 7
                    \/ m = 8 \/ m = 9 \/ m = 10 \/ m = 11 \/ m = 12) by lia.
      repeat (destruct Hm' as [-> | Hm']; [simpl; lia |]). subst m. simpl. lia. }
    assert (Hdbm0 : 0 <= DAYS_BEFORE_MONTH m).
    { assert (Hm' : m = 1 \/ m = 2 \/ m = 3 \/ m = 4 \/ m = 5 \/ m = 6 \/ m = 7
                    \/ m = 8 \/ m = 9 \/ m = 10 \/ m = 11 \/ m = 12) by lia.
      repeat (destruct Hm' as [-> | Hm']; [simpl; lia |]). subst m. simpl. lia. }
    assert (Hadj : 0 <= (if (2 <? m) && is_leap y then 1 else 0)
                        + (if (m =? 2) && is_leap y then 1 else 0) <= 1).
    { destruct (Z.ltb_spec 2 m), (Z.eqb_spec m 2), (is_leap y); simpl; lia. }
    assert (Hadj1 : 0 <= (if (2 <? m) && is_leap y then 1 else 0) <= 1)
      by (destruct ((2 <? m) && is_leap y); lia).
    unfold days_before_year in Hord.
    pose proof (Z.div_mod (y - 1) 4 ltac:(lia)).
    pose proof (Z.mod_pos_bound (y - 1) 4 ltac:(lia)).
    pose proof (Z.div_mod (y - 1) 100 ltac:(lia)).
    pose proof (Z.mod_pos_bound (y - 1) 100 ltac:(lia)).
    pose proof (Z.div_mod (y - 1) 400 ltac:(lia)).
    pose proof (Z.mod_pos_bound (y - 1) 400 ltac:(lia)).
    lia. }
  repeat split; lia.
Qed.

End CalendarFacts.

(* ================================================================== *)
(** * Decimal numerals *)

Module DecimalFacts.
Import DecimalSyntax.

Lemma numeral_char_not_space (c : ascii) :
  numeral_char c = true -> is_space c = false.
Proof.
  destruct c as [[] [] [] [] [] [] [] []]; vm_compute; intro H;
    first [reflexivity | discriminate H].
Qed.

Lemma is_digit_numeral_char (c : ascii) :
  is_digit c = true -> numeral_char c = true.
Proof. unfold numeral_char. now intros ->. Qed.

(** A run of digits followed by nothing or by a character that is no
    digit is what [span_digits] splits off. *)
Lemma span_digits_app (ds rest : list ascii) :
  forallb is_digit ds = true ->
  match rest with
  | [] => True
  | c :: _ => is_digit c = false
  end ->
  span_digits (ds ++ rest) = (ds, rest).
Proof.
  intros Hds Hrest. induction ds as [| d ds IH]; simpl.
  - destruct rest as [| c r]; [reflexivity |]. simpl. now rewrite Hrest.
  - simpl in Hds. apply andb_true_iff in Hds. destruct Hds as [Hd Hds].
    now rewrite Hd, (IH Hds).
Qed.

Lemma span_digits_all (ds : list ascii) :
  forallb is_digit ds = true -> span_digits ds = (ds, []).
Proof.
  intro H. rewrite <- (app_nil_r ds) at 1. now apply span_digits_app.
Qed.

(** [int] of a string of digits is its positional value. *)
Lemma int_of_digits_from (ds : list ascii) (acc : N) :
  Z.of_N (fold_left (fun a c => (10 * a + digit_value c)%N) ds acc)
  = Z.of_N acc * 10 ^ Z.of_nat (List.length ds) + digits_value ds.
Proof.
  revert acc. induction ds as [| c r IH]; intro acc.
  - simpl. lia.
  - cbn [fold_left digits_value List.length]. rewrite IH.
    rewrite Nat2Z.inj_succ, Z.pow_succ_r by lia.
    rewrite N2Z.inj_add, N2Z.inj_mul. simpl Z.of_N at 1. lia.
Qed.

Lemma int_of_digits_value (ds : list ascii) :
  Z.of_N (int_of_digits ds) = digits_value ds.
Proof. unfold int_of_digits. rewrite int_of_digits_from. simpl. lia. Qed.

Lemma digits_value_app (a b : list ascii) :
  digits_value (a ++ b)
  = digits_value a * 10 ^ Z.of_nat (List.length b) + digits_value b.
Proof.
  induction a as [| c r IH]; [simpl; lia |].
  cbn [app digits_value List.length]. rewrite IH, length_app, Nat2Z.inj_add.
  rewrite Z.pow_add_r by lia. lia.
Qed.

Lemma take_sign_digit (c : ascii) (l : list ascii) :
  is_digit c = true -> take_sign (c :: l) = (false, c :: l).
Proof.
  destruct c as [[] [] [] [] [] [] [] []]; vm_compute; intro H;
    first [reflexivity | discriminate H].
Qed.

Lemma forallb_digits_numeral_char (ds : list ascii) :
  forallb is_digit ds = true -> forallb numeral_char ds = true.
Proof.
  intro H. rewrite forallb_forall in *. intros c Hc.
  apply is_digit_numeral_char. now apply H.
Qed.

Lemma numeral_chars_plain (n : numeral) :
  well_formed_numeral n -> forallb numeral_char (numeral_chars n) = true.
Proof.
  intros [Hint [Hfrac [_ Hexp]]].
  unfold numeral_chars, point_and_frac, exponent_chars, frac_digits in *.
  rewrite !forallb_app, (forallb_digits_numeral_char _ Hint).
  assert (Hsign : forall s, forallb numeral_char (sign_chars s) = true)
    by (intros [[|] |]; reflexivity).
  rewrite Hsign. simpl.
  assert (Hpf : forallb numeral_char
                  match num_frac n with
                  | Some fs => "."%char :: fs
                  | None => []
                  end = true).
  { destruct (num_frac n) as [fs |]; [| reflexivity].
    simpl. exact (forallb_digits_numeral_char _ Hfrac). }
  rewrite Hpf. simpl.
  destruct (num_exp n) as [p |]; [| reflexivity].
  destruct Hexp as [Hd _]. cbn [forallb]. rewrite forallb_app, Hsign.
  rewrite (forallb_digits_numeral_char _ Hd).
  now destruct (exp_upper p).
Qed.

(** ** White space and underscores around a numeral *)

Lemma underscored_remove (body chars : list ascii) :
  underscored body chars -> remove_underscores body = chars.
Proof.
  unfold remove_underscores.
  induction 1 as [| body chars _ IH | c body chars Hc _ IH]; simpl.
  - reflexivity.
  - exact IH.
  - destruct (Ascii.eqb_spec c "_") as [-> | _]; [now contradiction Hc |].
    simpl. now rewrite IH.
Qed.

Lemma underscored_not_space (body chars : list ascii) :
  underscored body chars ->
  forallb numeral_char chars = true ->
  forallb (fun c => negb (is_space c)) body = true.
Proof.
  induction 1 as [| body chars _ IH | c body chars _ _ IH]; simpl; intro Hall.
  - reflexivity.
  - exact (IH Hall).
  - apply andb_true_iff in Hall. destruct Hall as [Hc Hall].
    now rewrite (numeral_char_not_space _ Hc), (IH Hall).
Qed.

Lemma underscored_nonempty (body chars : list ascii) :
  underscored body chars -> chars <> [] -> body <> [].
Proof. intros H Hne. destruct H; [now contradiction Hne | discriminate | discriminate]. Qed.

Lemma underscored_refl (chars : list ascii) :
  forallb numeral_char chars = true -> underscored chars chars.
Proof.
  induction chars as [| c r IH]; simpl; intro H; [constructor |].
  apply andb_true_iff in H. destruct H as [Hc Hr].
  constructor; [| exact (IH Hr)].
  intros ->. discriminate Hc.
Qed.

Lemma lstrip_spaces (lead l : list ascii) :
  forallb is_space lead = true -> lstrip (lead ++ l) = lstrip l.
Proof.
  induction lead as [| c r IH]; simpl; intro H; [reflexivity |].
  apply andb_true_iff in H. destruct H as [Hc Hr]. now rewrite Hc, (IH Hr).
Qed.

Lemma lstrip_no_space_head (l : list ascii) :
  forallb (fun c => negb (is_space c)) l = true -> lstrip l = l.
Proof.
  destruct l as [| c r]; simpl; [reflexivity |]. intro H.
  apply andb_true_iff in H. destruct H as [Hc _].
  apply negb_true_iff in Hc. now rewrite Hc.
Qed.

Lemma lstrip_no_space_app (l rest : list ascii) :
  l <> [] ->
  forallb (fun c => negb (is_space c)) l = true -> lstrip (l ++ rest) = l ++ rest.
Proof.
  destruct l as [| c r]; simpl; [now intros [] |]. intros _ H.
  apply andb_true_iff in H. destruct H as [Hc _].
  apply negb_true_iff in Hc. now rewrite Hc.
Qed.

Lemma forallb_rev {A} (f : A -> bool) (l : list A) :
  forallb f l = true -> forallb f (rev l) = true.
Proof.
  intro H. rewrite forallb_forall in *. intros x Hx. apply H. now apply in_rev.
Qed.

(** [strip] takes off exactly the white space around a body that holds
    none. *)
Lemma strip_padded (lead body trail : list ascii) :
  forallb is_space lead = true ->
  forallb is_space trail = true ->
  body <> [] ->
  forallb (fun c => negb (is_space c)) body = true ->
  strip (lead ++ body ++ trail) = body.
Proof.
  intros Hlead Htrail Hne Hbody. unfold strip.
  rewrite (lstrip_spaces lead _ Hlead), (lstrip_no_space_app body trail Hne Hbody).
  rewrite rev_app_distr, (lstrip_spaces (rev trail) _ (forallb_rev _ _ Htrail)).
  rewrite (lstrip_no_space_head _ (forallb_rev _ _ Hbody)).
  apply rev_involutive.
Qed.

(** ** The numeral inside *)

Lemma take_sign_chars (sign : option bool) (rest : list ascii) :
  match rest with
  | c :: _ => is_digit c = true \/ c = "."%char
  | [] => False
  end ->
  take_sign (sign_chars sign ++ rest)
  = (match sign with Some true => true | _ => false end, rest).
Proof.
  destruct sign as [[|] |]; try reflexivity.
  simpl. destruct rest as [| c r]; [intros [] |].
  intros [Hc | ->]; [exact (take_sign_digit c r Hc) | reflexivity].
Qed.

Lemma parse_exponent_chars (x : option exponent_part) :
  match x with
  | Some p => forallb is_digit (exp_digits p) = true /\ exp_digits p <> []
  | None => True
  end ->
  parse_exponent (exponent_chars x) = Some (exponent_value x).
Proof.
  destruct x as [p |]; [| reflexivity].
  intros [Hd Hne]. unfold exponent_chars, exponent_value.
  assert (Hlow : Ascii.eqb (lower (if exp_upper p then "E" else "e")%char) "e" = true)
    by (destruct (exp_upper p); reflexivity).
  unfold parse_exponent. rewrite Hlow.
  destruct (exp_digits p) as [| c r] eqn:Hds; [now contradiction Hne |].
  assert (Hc : is_digit c = true)
    by (simpl in Hd; apply andb_true_iff in Hd; tauto).
  rewrite (take_sign_chars (exp_sign p) (c :: r) (or_introl Hc)).
  rewrite (span_digits_all (c :: r) Hd), int_of_digits_value.
  now destruct (exp_sign p) as [[|] |].
Qed.

Lemma exponent_chars_head (x : option exponent_part) :
  match exponent_chars x with
  | [] => True
  | c :: _ => is_digit c = false /\ c <> "."%char
  end.
Proof.
  destruct x as [p |]; simpl; [| exact I].
  destruct (exp_upper p); split; (reflexivity || discriminate).
Qed.

Lemma parse_number_numeral (n : numeral) :
  well_formed_numeral n ->
  parse_number (num_int n ++ point_and_frac n ++ exponent_chars (num_exp n))
  = Some (num_int n ++ frac_digits n, numeral_exponent n).
Proof.
  intros [Hint [Hfrac [Hne Hexp]]].
  unfold parse_number, point_and_frac, numeral_exponent, frac_digits in *.
  pose proof (exponent_chars_head (num_exp n)) as Hhead.
  pose proof (parse_exponent_chars (num_exp n) Hexp) as Hpe.
  destruct (num_frac n) as [fs |].
  - rewrite (span_digits_app (num_int n) (("."%char :: fs) ++ _) Hint eq_refl).
    cbn [app].
    rewrite (span_digits_app fs (exponent_chars (num_exp n)) Hfrac).
    + destruct (num_int n ++ fs) eqn:Hds; [contradiction |].
      now rewrite Hpe.
    + destruct (exponent_chars (num_exp n)); [exact I | exact (proj1 Hhead)].
  - cbn [app]. rewrite app_nil_r in *.
    rewrite (span_digits_app (num_int n) (exponent_chars (num_exp n)) Hint).
    + destruct (exponent_chars (num_exp n)) as [| c r] eqn:Hx.
      * destruct (num_int n) eqn:Hds; [contradiction |].
        rewrite app_nil_r. rewrite Hpe. simpl. now rewrite Z.sub_0_r.
      * destruct Hhead as [_ Hpoint].
        assert (Hm : match c :: r with
                     | "."%char :: t => span_digits t
                     | _ => ([], c :: r)
                     end = ([], c :: r)).
        { destruct c as [[] [] [] [] [] [] [] []]; try reflexivity.
          now contradiction Hpoint. }
        rewrite Hm. rewrite app_nil_r.
        destruct (num_int n) eqn:Hds; [contradiction |].
        rewrite Hpe. simpl. now rewrite Z.sub_0_r.
    + destruct (exponent_chars (num_exp n)); [exact I | exact (proj1 Hhead)].
Qed.

Lemma within_limits_representable (n : numeral) :
  within_limits (num_int n ++ frac_digits n) (numeral_exponent n) = true
  <-> representable n.
Proof.
  unfold within_limits, representable.
  rewrite !andb_true_iff, !Z.leb_le. tauto.
Qed.

(** A decimal string is converted digit for digit when the numeral is
    within the limits, and refused otherwise. *)
Lemma Decimal_from_str_decimal_string (s : string) (n : numeral) :
  decimal_string s n ->
  Decimal_from_str s
  = if within_limits (num_int n ++ frac_digits n) (numeral_exponent n)
    then inr (Decimal_of_numeral n)
    else inl (raised InvalidOperation).
Proof.
  intros [Hwf [lead [body [trail [Hs [Hlead [Htrail Hund]]]]]]].
  pose proof (numeral_chars_plain n Hwf) as Hplain.
  assert (Hne : numeral_chars n <> []).
  { destruct Hwf as [_ [_ [Hne _]]]. unfold numeral_chars, point_and_frac, frac_digits in *.
    intro H. apply app_eq_nil in H. destruct H as [_ H].
    apply app_eq_nil in H. destruct H as [Hi H].
    apply app_eq_nil in H. destruct H as [Hf _].
    rewrite Hi in Hne. destruct (num_frac n); [discriminate Hf | now contradiction Hne]. }
  unfold Decimal_from_str, parse. rewrite Hs.
  rewrite (strip_padded lead body trail Hlead Htrail
             (underscored_nonempty _ _ Hund Hne)
             (underscored_not_space _ _ Hund Hplain)).
  rewrite (underscored_remove _ _ Hund).
  assert (Hsign : take_sign (numeral_chars n)
                  = (match num_sign n with Some true => true | _ => false end,
                     num_int n ++ point_and_frac n ++ exponent_chars (num_exp n))).
  { unfold numeral_chars. apply take_sign_chars.
    destruct Hwf as [Hint [Hfrac [Hnd _]]]. unfold point_and_frac, frac_digits in *.
    destruct (num_int n) as [| c r] eqn:Hi.
    - destruct (num_frac n) as [fs |]; [simpl; now right | now contradiction Hnd].
    - simpl in *. apply andb_true_iff in Hint. left. tauto. }
  rewrite Hsign, (parse_number_numeral n Hwf).
  now destruct (within_limits _ _).
Qed.

(** A coefficient [iv * 10^L + fv] with exponent [x - L] is the number
    [(iv + fv / 10^L) * 10^x]. *)
Lemma scaled_coefficient (iv fv L x : Z) :
  0 <= L ->
  ((if 0 <=? x - L
    then Qmake ((iv * 10 ^ L + fv) * 10 ^ (x - L)) 1
    else Qmake (iv * 10 ^ L + fv) (Z.to_pos (10 ^ (- (x - L)))))
   == (Qmake iv 1 + Qmake fv (Z.to_pos (10 ^ L))) * power_of_ten x)%Q.
Proof.
  intro HL. unfold power_of_ten.
  assert (Hpow : forall k, 0 <= k -> 0 < 10 ^ k)
    by (intros k Hk; apply Z.pow_pos_nonneg; lia).
  destruct (Z.leb_spec 0 (x - L)) as [H1 | H1];
    destruct (Z.leb_spec 0 x) as [H2 | H2]; try lia;
    unfold Qeq, Qplus, Qmult; simpl Qnum; simpl Qden;
    rewrite ?Pos2Z.inj_mul, ?Z2Pos.id by (apply Hpow; lia).
  - assert (Hx : 10 ^ x = 10 ^ (x - L) * 10 ^ L)
      by (rewrite <- Z.pow_add_r by lia; f_equal; lia).
    rewrite Hx. ring.
  - assert (Hx : 10 ^ L = 10 ^ x * 10 ^ (- (x - L)))
      by (rewrite <- Z.pow_add_r by lia; f_equal; lia).
    rewrite Hx. ring.
  - assert (Hx : 10 ^ (- (x - L)) = 10 ^ L * 10 ^ (- x))
      by (rewrite <- Z.pow_add_r by lia; f_equal; lia).
    rewrite Hx. ring.
Qed.

(** The converted [Decimal] stands for exactly the number the numeral
    denotes. *)
Lemma Decimal_of_numeral_exact (n : numeral) :
  exact_decimal (Decimal_of_numeral n) n.
Proof.
  unfold exact_decimal, Decimal_of_numeral, Decimal_value, numeral_value,
    numeral_exponent.
  eexists. split; [reflexivity |].
  rewrite int_of_digits_value, digits_value_app.
  pose proof (scaled_coefficient
                (digits_value (num_int n)) (digits_value (frac_digits n))
                (Z.of_nat (List.length (frac_digits n)))
                (exponent_value (num_exp n)) ltac:(lia)) as Hmain.
  destruct (num_sign n) as [[|] |]; [| exact Hmain | exact Hmain].
  rewrite <- Hmain.
  destruct (0 <=? _); unfold Qeq, Qopp; simpl Qnum; simpl Qden; ring.
Qed.

(** A well-formed numeral written plainly is a decimal string. *)
Lemma numeral_string_is_decimal_string (n : numeral) :
  well_formed_numeral n -> decimal_string (numeral_string n) n.
Proof.
  intro Hwf. split; [exact Hwf |].
  exists [], (numeral_chars n), []. unfold numeral_string.
  rewrite list_ascii_of_string_of_list_ascii, app_nil_r.
  repeat split. exact (underscored_refl _ (numeral_chars_plain n Hwf)).
Qed.

End DecimalFacts.

(* ================================================================== *)
(** * Frames that end the session *)

(** On a frame of a close kind [receive_msg] never reaches [json.loads]:
    it raises what [handle_close_message] raises or, should that call
    return, [UnsupportedMessage] carrying the frame. *)
Lemma receive_msg_close_kind (E : Env) (msg : WSMessage) :
  In (msg_type msg) (CLOSE_MESSAGES E) ->
  receive_msg E (inr msg)
  = inl match handle_close_message msg with
        | Some e => e
        | None => mkExn (Class UnsupportedMessage) (ArgFrame msg)
        end.
Proof.
  intro Hkind. unfold receive_msg. apply close_kind_In in Hkind.
  rewrite Hkind. now destruct (handle_close_message msg).
Qed.

(** C3. When the loop is reading and the next frame is of a kind listed in
    [CLOSE_MESSAGES], the loop ends with [ConnectionClosed] carrying the
    frame's close code ([data]) and reason ([extra]), whatever frames
    follow; that exception is neither the decode failure nor a
    [ValueError] such as [JSONDecodeError]. *)
Theorem close_frame_raises_ConnectionClosed
  (E : Env) (md : option MarketDataCallback)
  (ob : option OrderBookCallback) (tr : option TradesCallback)
  (pre rest : list (exn + WSMessage)) (evs : list event) (msg : WSMessage) :
  reader_loop E md ob tr pre = (evs, Receiving) ->
  In (msg_type msg) (CLOSE_MESSAGES E) ->
  let closed :=
    mkExn (Class ConnectionClosed) (ArgClose (msg_data msg) (msg_extra msg)) in
  reader_loop E md ob tr (pre ++ inr msg :: rest) = (evs, Raised closed)
  /\ closed <> decode_failure
  /\ isinstance closed ValueError = false
  /\ isinstance closed ConnectionClosed = true.
Proof.
  intros Hpre Hkind closed. split; [| split; [| split]].
  - apply reader_loop_receive_fails; [exact Hpre |].
    exact (receive_msg_close_kind E msg Hkind).
  - discriminate.
  - reflexivity.
  - reflexivity.
Qed.

Lemma close_frame_raises_ConnectionClosed_witness :
  let E := Examples.example_env [] in
  let md := Some Examples.quiet_callback in
  let pre := [Examples.text_frame Examples.trade_text] in
  let rest := [Examples.text_frame Examples.trade_text] in
  reader_loop E md None None pre
  = ([Awaited_market_data Examples.trade_payload], Receiving)
  /\ In CLOSE (CLOSE_MESSAGES E)
  /\ reader_loop E md None None (pre ++ inr Examples.close_frame :: rest)
     = ([Awaited_market_data Examples.trade_payload],
        Raised (mkExn (Class ConnectionClosed)
                      (ArgClose (DataInt 1000) (Some "bye")))).
Proof.
  intros E md pre rest.
  assert (Hpre : reader_loop E md None None pre
                 = ([Awaited_market_data Examples.trade_payload], Receiving))
    by (vm_compute; reflexivity).
  assert (Hkind : In (msg_type Examples.close_frame) (CLOSE_MESSAGES E))
    by (simpl; auto).
  split; [exact Hpre | split; [exact Hkind |]].
  exact (proj1 (close_frame_raises_ConnectionClosed
                  E md None None pre rest _ Examples.close_frame Hpre Hkind)).
Defined.

(** C4. When the loop is reading and the next frame is not of a close kind
    (a text or binary frame) and [json.loads] raises on its payload, the
    loop ends with that very exception, not replaced by the decode
    failure; no later frame is looked at (the result does not depend on
    the frames that follow) and [run] ends with the same exception. *)
Theorem malformed_json_ends_session
  (E : Env) (md : option MarketDataCallback)
  (ob : option OrderBookCallback) (tr : option TradesCallback)
  (pre rest : list (exn + WSMessage)) (evs : list event) (msg : WSMessage)
  (e : exn) :
  reader_loop E md ob tr pre = (evs, Receiving) ->
  ~ In (msg_type msg) (CLOSE_MESSAGES E) ->
  json_loads E (msg_data msg) = inl e ->
  reader_loop E md ob tr (pre ++ inr msg :: rest) = (evs, Raised e)
  /\ forall ws_addr,
       ws_connect E ws_addr = inr (pre ++ inr msg :: rest) ->
       run E md ob tr ws_addr = (evs, Raised e).
Proof.
  intros Hpre Hkind Hjson.
  assert (Hloop : reader_loop E md ob tr (pre ++ inr msg :: rest) = (evs, Raised e)).
  { apply reader_loop_receive_fails; [exact Hpre |].
    unfold receive_msg. now rewrite (close_kind_not_In _ _ Hkind). }
  split; [exact Hloop |].
  intros ws_addr Hconn. unfold run. now rewrite Hconn.
Qed.

Lemma malformed_json_ends_session_witness :
  let pre := [Examples.text_frame Examples.trade_text] in
  let bad := mkWSMessage TEXT (DataStr "{not json") None in
  let rest := [Examples.text_frame Examples.trade_text] in
  let E := Examples.example_env (pre ++ inr bad :: rest) in
  let tr := Some CoroutineFunction in
  let trade :=
    Scheduled_trades (mkDatetime 2023 11 14 22 13 20 0) (JInt 42)
                     (JStr "BTC_USD") (DFinite false 15 (-1))
                     (DFinite false 3000025 (-2)) in
  reader_loop E None None tr pre = ([trade], Receiving)
  /\ ~ In TEXT (CLOSE_MESSAGES E)
  /\ json_loads E (DataStr "{not json") = inl (raised JSONDecodeError)
  /\ run E None None tr "wss://example" = ([trade], Raised (raised JSONDecodeError)).
Proof.
  intros pre bad rest E tr trade.
  assert (Hpre : reader_loop E None None tr pre = ([trade], Receiving))
    by (vm_compute; reflexivity).
  assert (Hkind : ~ In (msg_type bad) (CLOSE_MESSAGES E))
    by (simpl; intros [H | [H | [H | [H | []]]]]; discriminate H).
  assert (Hjson : json_loads E (msg_data bad) = inl (raised JSONDecodeError))
    by (vm_compute; reflexivity).
  split; [exact Hpre | split; [exact Hkind | split; [exact Hjson |]]].
  exact (proj2 (malformed_json_ends_session
                  E None None tr pre rest _ bad _ Hpre Hkind Hjson)
               "wss://example" eq_refl).
Defined.

(* ================================================================== *)
(** * Envelopes the router refuses *)

Lemma py_eq_str_false (v : json) (s : string) :
  v <> JStr s -> py_eq_str v s = false.
Proof.
  destruct v as [| | | | t | |]; simpl; try reflexivity.
  intro Hne. destruct (String.eqb_spec t s) as [-> | _]; [| reflexivity].
  now contradiction Hne.
Qed.

Lemma run_connected (E : Env) (md : option MarketDataCallback)
  (ob : option OrderBookCallback) (tr : option TradesCallback)
  (ws_addr : string) (ws : list (exn + WSMessage)) :
  ws_connect E ws_addr = inr ws ->
  run E md ob tr ws_addr = reader_loop E md ob tr ws.
Proof. intro H. unfold run. now rewrite H. Qed.

(** The [try] on an envelope whose [response_type] is hashable and is not
    the string BROADCAST: [KeyError] from the enumeration or
    [UnsupportedMessageType] from the comparison, before any callback. *)
Lemma try_body_not_broadcast (E : Env) (md : option MarketDataCallback)
  (ob : option OrderBookCallback) (tr : option TradesCallback)
  (members : list (string * json)) (v : json) :
  dict_lookup "response_type" members = Some v ->
  hashable v = true ->
  v <> JStr "BROADCAST" ->
  try_body E md ob tr (JObject members) = ([], inl (raised UnsupportedMessageType))
  \/ try_body E md ob tr (JObject members) = ([], inl (raised KeyError)).
Proof.
  intros Hrt Hhash Hne. unfold try_body, getitem. rewrite Hrt, bind_value.
  destruct v as [| b | n | f | s | l | kv]; simpl in Hhash; try discriminate Hhash;
    try (right; reflexivity).
  simpl ServerMessageType_getitem.
  destruct (String.eqb_spec s "BROADCAST") as [-> | _]; [now contradiction Hne |].
  destruct (existsb (String.eqb s) (other_categories E)).
  - left. now rewrite bind_value.
  - right. reflexivity.
Qed.

(** A [response_type] that is a [list] or a [dict] cannot be looked up in
    the enumeration: the [TypeError] is not one of the handled classes and
    ends the turn as it is. *)
Lemma unhashable_response_type_raises_TypeError (E : Env)
  (md : option MarketDataCallback)
  (ob : option OrderBookCallback) (tr : option TradesCallback)
  (members : list (string * json)) (v : json) :
  dict_lookup "response_type" members = Some v ->
  hashable v = false ->
  handle_msg E md ob tr (JObject members) = ([], inl (raised TypeError)).
Proof.
  intros Hrt Hhash. unfold handle_msg, try_body, getitem. rewrite Hrt, bind_value.
  destruct v; simpl in Hhash; try discriminate Hhash; reflexivity.
Qed.

(** C6. When the loop is reading and the next frame decodes to an envelope
    whose [response_type] is any hashable value other than the string
    BROADCAST (the name of another category, or a value outside the
    enumeration), the [try] raises [UnsupportedMessageType] or [KeyError]
    with no callback activity, the loop ends with the generic decode
    failure and the events are those of the earlier frames only; [run]
    ends the same way. *)
Theorem non_broadcast_ends_loop
  (E : Env) (md : option MarketDataCallback)
  (ob : option OrderBookCallback) (tr : option TradesCallback)
  (pre rest : list (exn + WSMessage)) (evs : list event)
  (received : exn + WSMessage) (members : list (string * json)) (v : json) :
  reader_loop E md ob tr pre = (evs, Receiving) ->
  receive_msg E received = inr (JObject members) ->
  dict_lookup "response_type" members = Some v ->
  hashable v = true ->
  v <> JStr "BROADCAST" ->
  (exists e, try_body E md ob tr (JObject members) = ([], inl e)
             /\ (isinstance e UnsupportedMessageType = true
                 \/ isinstance e KeyError = true))
  /\ handle_msg E md ob tr (JObject members) = ([], inl decode_failure)
  /\ reader_loop E md ob tr (pre ++ received :: rest) = (evs, Raised decode_failure)
  /\ forall ws_addr,
       ws_connect E ws_addr = inr (pre ++ received :: rest) ->
       run E md ob tr ws_addr = (evs, Raised decode_failure).
Proof.
  intros Hpre Hrecv Hrt Hhash Hne.
  assert (Hh : handle_msg E md ob tr (JObject members) = ([], inl decode_failure)).
  { unfold handle_msg.
    destruct (try_body_not_broadcast E md ob tr members v Hrt Hhash Hne) as [-> | ->];
      reflexivity. }
  assert (Hloop : reader_loop E md ob tr (pre ++ received :: rest)
                  = (evs, Raised decode_failure)).
  { rewrite (reader_loop_handle_fails E md ob tr pre received rest evs _ _ _
               Hpre Hrecv Hh).
    now rewrite app_nil_r. }
  split; [| split; [exact Hh | split; [exact Hloop |]]].
  - destruct (try_body_not_broadcast E md ob tr members v Hrt Hhash Hne) as [H | H];
      eexists; (split; [exact H |]); [left | right]; reflexivity.
  - intros ws_addr Hconn. now rewrite (run_connected _ _ _ _ _ _ Hconn).
Qed.

Lemma non_broadcast_ends_loop_witness :
  let pre := [Examples.text_frame Examples.trade_text] in
  let received := Examples.text_frame Examples.control_text in
  let rest := [Examples.text_frame Examples.trade_text] in
  let E := Examples.example_env (pre ++ received :: rest) in
  let md := Some Examples.quiet_callback in
  let ob := Some CoroutineFunction in
  let tr := Some CoroutineFunction in
  let trade :=
    Scheduled_trades (mkDatetime 2023 11 14 22 13 20 0) (JInt 42)
                     (JStr "BTC_USD") (DFinite false 15 (-1))
                     (DFinite false 3000025 (-2)) in
  let evs := [Awaited_market_data Examples.trade_payload; trade] in
  reader_loop E md ob tr pre = (evs, Receiving)
  /\ receive_msg E received = inr Examples.control_envelope
  /\ run E md ob tr "wss://example" = (evs, Raised decode_failure).
Proof.
  intros pre received rest E md ob tr trade evs.
  assert (Hpre : reader_loop E md ob tr pre = (evs, Receiving))
    by (vm_compute; reflexivity).
  assert (Hrecv : receive_msg E received = inr Examples.control_envelope)
    by (vm_compute; reflexivity).
  split; [exact Hpre | split; [exact Hrecv |]].
  refine (proj2 (proj2 (proj2
            (non_broadcast_ends_loop E md ob tr pre rest evs received
               _ (JStr "MESSAGE") Hpre Hrecv eq_refl eq_refl _)))
          "wss://example" eq_refl).
  discriminate.
Defined.

(** A payload whose [@type] is neither of the two known strings. *)
Lemma dispatch_unknown_type (E : Env)
  (ob : option OrderBookCallback) (tr : option TradesCallback)
  (fields : list (string * json)) (type : json) :
  dict_lookup "@type" fields = Some type ->
  type <> JStr "OrderBookAgg" ->
  type <> JStr "AnonymousTrade" ->
  dispatch E ob tr (JObject fields) = ([], inl (raised UnsupportedMessageType)).
Proof.
  intros Htype Hob Htr. unfold dispatch, getitem. rewrite Htype.
  rewrite bind_value, (py_eq_str_false _ _ Hob).
  now rewrite bind_value, (py_eq_str_false _ _ Htr).
Qed.

(** C7. When the loop is reading and the next frame decodes to a Broadcast
    envelope whose market-data step returns and whose payload carries an
    [@type] that is neither the string OrderBookAgg nor the string
    AnonymousTrade, the [try] raises [UnsupportedMessageType], the loop
    ends with the generic decode failure, and the only callback activity
    of the turn is the market-data step: nothing is scheduled. *)
Theorem unknown_payload_type_ends_loop
  (E : Env) (md : option MarketDataCallback)
  (ob : option OrderBookCallback) (tr : option TradesCallback)
  (pre rest : list (exn + WSMessage)) (evs : list event)
  (received : exn + WSMessage) (msg payload : json)
  (fields : list (string * json)) (type : json) :
  reader_loop E md ob tr pre = (evs, Receiving) ->
  receive_msg E received = inr msg ->
  broadcast_envelope msg payload ->
  market_data_returns md payload (JObject fields) ->
  dict_lookup "@type" fields = Some type ->
  type <> JStr "OrderBookAgg" ->
  type <> JStr "AnonymousTrade" ->
  try_body E md ob tr msg
  = (market_data_events md payload, inl (raised UnsupportedMessageType))
  /\ handle_msg E md ob tr msg = (market_data_events md payload, inl decode_failure)
  /\ reader_loop E md ob tr (pre ++ received :: rest)
     = (evs ++ market_data_events md payload, Raised decode_failure)
  /\ forallb is_market_data_event (market_data_events md payload) = true.
Proof.
  intros Hpre Hrecv Hb Hmd Htype Hob Htr.
  assert (Hbody : try_body E md ob tr msg
                  = (market_data_events md payload,
                     inl (raised UnsupportedMessageType))).
  { rewrite (try_body_broadcast E md ob tr _ _ Hb).
    rewrite (await_market_data_returns md _ _ Hmd), bind_events.
    rewrite (dispatch_unknown_type E ob tr _ _ Htype Hob Htr).
    simpl. now rewrite app_nil_r. }
  assert (Hh : handle_msg E md ob tr msg
               = (market_data_events md payload, inl decode_failure)).
  { unfold handle_msg. now rewrite Hbody. }
  split; [exact Hbody | split; [exact Hh | split]].
  - exact (reader_loop_handle_fails E md ob tr pre received rest evs _ _ _
             Hpre Hrecv Hh).
  - unfold market_data_events. now destruct md.
Qed.

Lemma unknown_payload_type_ends_loop_witness :
  let pre := [Examples.text_frame Examples.trade_text] in
  let received := Examples.text_frame Examples.ticker_text in
  let rest := [Examples.text_frame Examples.trade_text] in
  let E := Examples.example_env [] in
  let md := Some Examples.quiet_callback in
  let ob := Some CoroutineFunction in
  let tr := Some CoroutineFunction in
  let trade :=
    Scheduled_trades (mkDatetime 2023 11 14 22 13 20 0) (JInt 42)
                     (JStr "BTC_USD") (DFinite false 15 (-1))
                     (DFinite false 3000025 (-2)) in
  let evs := [Awaited_market_data Examples.trade_payload; trade] in
  reader_loop E md ob tr pre = (evs, Receiving)
  /\ receive_msg E received = inr Examples.ticker_envelope
  /\ broadcast_envelope Examples.ticker_envelope Examples.ticker_payload
  /\ reader_loop E md ob tr (pre ++ received :: rest)
     = (evs ++ [Awaited_market_data Examples.ticker_payload],
        Raised decode_failure).
Proof.
  intros pre received rest E md ob tr trade evs.
  assert (Hpre : reader_loop E md ob tr pre = (evs, Receiving))
    by (vm_compute; reflexivity).
  assert (Hrecv : receive_msg E received = inr Examples.ticker_envelope)
    by (vm_compute; reflexivity).
  assert (Hb : broadcast_envelope Examples.ticker_envelope Examples.ticker_payload)
    by (eexists; split; [reflexivity | split; reflexivity]).
  split; [exact Hpre | split; [exact Hrecv | split; [exact Hb |]]].
  refine (proj1 (proj2 (proj2
            (unknown_payload_type_ends_loop E md ob tr pre rest evs received
               _ _ _ (JStr "Ticker") Hpre Hrecv Hb eq_refl eq_refl _ _)))).
  - discriminate.
  - discriminate.
Defined.

(* ================================================================== *)
(** * The market-data callback *)

(** The turn on a Broadcast envelope whose market-data callback raises. *)
Lemma handle_broadcast_raises (E : Env) (f : MarketDataCallback)
  (ob : option OrderBookCallback) (tr : option TradesCallback)
  (msg payload : json) (e : exn) :
  broadcast_envelope msg payload ->
  f payload = Raises e ->
  handle_msg E (Some f) ob tr msg
  = ([Awaited_market_data payload],
     inl (if handled e then decode_failure else e)).
Proof.
  intros Hb Hf. unfold handle_msg.
  rewrite (try_body_broadcast E (Some f) ob tr _ _ Hb).
  unfold await_market_data. rewrite Hf. reflexivity.
Qed.

(** C8. On every Broadcast envelope, whatever its payload:
    - a registered market-data callback is awaited on the payload as the
      first event of the turn; if it returns, the turn goes on with the
      branch on [@type], applied to the payload as the callback left it,
      and if it raises, the branch is never reached;
    - without a registered callback the turn is the branch on [@type]
      alone;
    - the branch itself never awaits the market-data callback, so the
      callback is awaited exactly once per envelope. *)
Theorem market_data_callback_awaited_first
  (E : Env) (ob : option OrderBookCallback) (tr : option TradesCallback)
  (msg payload : json) :
  broadcast_envelope msg payload ->
  (forall f payload_after,
      f payload = Returns payload_after ->
      handle_msg E (Some f) ob tr msg
      = (Awaited_market_data payload
           :: fst (try_except (dispatch E ob tr payload_after)),
         snd (try_except (dispatch E ob tr payload_after))))
  /\ (forall f e,
         f payload = Raises e ->
         handle_msg E (Some f) ob tr msg
         = ([Awaited_market_data payload],
            inl (if handled e then decode_failure else e)))
  /\ handle_msg E None ob tr msg = try_except (dispatch E ob tr payload)
  /\ (forall p, no_market_data (try_except (dispatch E ob tr p))).
Proof.
  intro Hb. split; [| split; [| split]].
  - intros f payload_after Hf.
    exact (handle_broadcast_returns E (Some f) ob tr _ _ _ Hb Hf).
  - intros f e Hf. exact (handle_broadcast_raises E f ob tr _ _ _ Hb Hf).
  - rewrite (handle_broadcast_returns E None ob tr _ _ payload Hb eq_refl).
    simpl. now destruct (try_except (dispatch E ob tr payload)).
  - intro p. pose proof (dispatch_no_market_data E ob tr p) as H.
    unfold no_market_data, try_except in *.
    destruct (dispatch E ob tr p) as [evs [e | []]]; exact H.
Qed.

Lemma market_data_callback_awaited_first_witness :
  let E := Examples.example_env [] in
  broadcast_envelope Examples.ticker_envelope Examples.ticker_payload
  /\ handle_msg E (Some Examples.quiet_callback) None None Examples.ticker_envelope
     = ([Awaited_market_data Examples.ticker_payload], inl decode_failure)
  /\ handle_msg E (Some (Examples.raising_callback (raised OSError))) None None
                Examples.ticker_envelope
     = ([Awaited_market_data Examples.ticker_payload], inl (raised OSError))
  /\ handle_msg E None None None Examples.ticker_envelope
     = ([], inl decode_failure).
Proof.
  intro E.
  assert (Hb : broadcast_envelope Examples.ticker_envelope Examples.ticker_payload)
    by (eexists; split; [reflexivity | split; reflexivity]).
  pose proof (market_data_callback_awaited_first E None None _ _ Hb)
    as [Hret [Hraise [Hnone _]]].
  split; [exact Hb | split; [| split]].
  - exact (Hret Examples.quiet_callback Examples.ticker_payload eq_refl).
  - exact (Hraise (Examples.raising_callback (raised OSError)) _ eq_refl).
  - exact Hnone.
Defined.

(** C10, amended. On a Broadcast envelope whose registered market-data
    callback raises [e]: if [e] is an instance of [KeyError], [ValueError]
    or [exceptions.UnsupportedMessageType], the three classes of the
    [except] clause, the loop ends with the generic decode failure in its
    place; an exception of any other class ends the loop, and [run],
    unchanged. *)
Theorem market_data_callback_exception
  (E : Env) (f : MarketDataCallback)
  (ob : option OrderBookCallback) (tr : option TradesCallback)
  (pre rest : list (exn + WSMessage)) (evs : list event)
  (received : exn + WSMessage) (msg payload : json) (e : exn) :
  reader_loop E (Some f) ob tr pre = (evs, Receiving) ->
  receive_msg E received = inr msg ->
  broadcast_envelope msg payload ->
  f payload = Raises e ->
  let surfaced :=
    if isinstance e KeyError || isinstance e ValueError
       || isinstance e UnsupportedMessageType
    then decode_failure else e in
  reader_loop E (Some f) ob tr (pre ++ received :: rest)
  = (evs ++ [Awaited_market_data payload], Raised surfaced)
  /\ forall ws_addr,
       ws_connect E ws_addr = inr (pre ++ received :: rest) ->
       run E (Some f) ob tr ws_addr
       = (evs ++ [Awaited_market_data payload], Raised surfaced).
Proof.
  intros Hpre Hrecv Hb Hf surfaced.
  assert (Hloop : reader_loop E (Some f) ob tr (pre ++ received :: rest)
                  = (evs ++ [Awaited_market_data payload], Raised surfaced)).
  { exact (reader_loop_handle_fails E (Some f) ob tr pre received rest evs _ _ _
             Hpre Hrecv (handle_broadcast_raises E f ob tr _ _ _ Hb Hf)). }
  split; [exact Hloop |].
  intros ws_addr Hconn. now rewrite (run_connected _ _ _ _ _ _ Hconn).
Qed.

Lemma market_data_callback_exception_witness :
  let received := Examples.text_frame Examples.trade_text in
  let E := Examples.example_env [received] in
  let tr := Some CoroutineFunction in
  reader_loop E (Some (Examples.raising_callback (raised KeyError))) None tr []
  = ([], Receiving)
  /\ receive_msg E received = inr Examples.trade_envelope
  /\ broadcast_envelope Examples.trade_envelope Examples.trade_payload
  /\ run E (Some (Examples.raising_callback (raised KeyError))) None tr
         "wss://example"
     = ([Awaited_market_data Examples.trade_payload], Raised decode_failure)
  /\ run E (Some (Examples.raising_callback (raised OSError))) None tr
         "wss://example"
     = ([Awaited_market_data Examples.trade_payload], Raised (raised OSError)).
Proof.
  intros received E tr.
  assert (Hrecv : receive_msg E received = inr Examples.trade_envelope)
    by (vm_compute; reflexivity).
  assert (Hb : broadcast_envelope Examples.trade_envelope Examples.trade_payload)
    by (eexists; split; [reflexivity | split; reflexivity]).
  split; [reflexivity | split; [exact Hrecv | split; [exact Hb | split]]].
  - exact (proj2 (market_data_callback_exception
                    E (Examples.raising_callback (raised KeyError)) None tr
                    [] [] [] received _ _ (raised KeyError)
                    eq_refl Hrecv Hb eq_refl)
                 "wss://example" eq_refl).
  - exact (proj2 (market_data_callback_exception
                    E (Examples.raising_callback (raised OSError)) None tr
                    [] [] [] received _ _ (raised OSError)
                    eq_refl Hrecv Hb eq_refl)
                 "wss://example" eq_refl).
Defined.

(** C10 as stated fails: a market-data callback that raises
    [exceptions.UnsupportedMessageType], which is an instance of neither
    [KeyError] nor [ValueError], does not reach the caller of [run]
    unchanged; the generic decode failure does. *)
Lemma market_data_callback_exception_counterexample :
  let e := raised UnsupportedMessageType in
  let E := Examples.example_env [Examples.text_frame Examples.trade_text] in
  isinstance e KeyError = false
  /\ isinstance e ValueError = false
  /\ run E (Some (Examples.raising_callback e)) None None "wss://example"
     = ([Awaited_market_data Examples.trade_payload], Raised decode_failure)
  /\ run E (Some (Examples.raising_callback e)) None None "wss://example"
     <> ([Awaited_market_data Examples.trade_payload], Raised e).
Proof.
  intros e E. split; [reflexivity | split; [reflexivity | split]].
  - vm_compute. reflexivity.
  - vm_compute. discriminate.
Qed.

(* ================================================================== *)
(** * Order-book updates *)

(** What [payload.get(key, dict)] hands over. *)
Lemma get_or_dict_lookup (fields : list (string * json)) (key : string) :
  get_or_dict (JObject fields) key
  = inr match dict_lookup key fields with
        | Some v => Value v
        | None => DictClass
        end.
Proof. unfold get_or_dict. now destruct (dict_lookup key fields). Qed.

(** The order-book branch: with a registered callback and the two
    required keys present, exactly one call is scheduled, with
    [current_order_id] and [trade_pair] as the payload has them and each
    of [buy_levels], [sell_levels] as the payload has it or, when absent,
    the class [dict]. *)
Lemma dispatch_order_book (E : Env)
  (callback : OrderBookCallback) (tr : option TradesCallback)
  (fields : list (string * json)) (current_order_id trade_pair : json) :
  dict_lookup "@type" fields = Some (JStr "OrderBookAgg") ->
  dict_lookup "current_order_id" fields = Some current_order_id ->
  dict_lookup "trade_pair" fields = Some trade_pair ->
  dispatch E (Some callback) tr (JObject fields)
  = ([Scheduled_order_book current_order_id trade_pair
        match dict_lookup "buy_levels" fields with
        | Some v => Value v
        | None => DictClass
        end
        match dict_lookup "sell_levels" fields with
        | Some v => Value v
        | None => DictClass
        end],
     inr tt).
Proof.
  intros Htype Hid Hpair. unfold dispatch, getitem.
  rewrite Htype, Hid, Hpair, !get_or_dict_lookup.
  rewrite bind_value. cbn [py_eq_str String.eqb Ascii.eqb Bool.eqb].
  now rewrite !bind_value.
Qed.

(** C1, at an update without levels. For the envelope
    [{response_type: BROADCAST, data: {@type: OrderBookAgg,
    current_order_id: 7, trade_pair: BTC_USD}}] with an order-book
    callback registered, one call is scheduled, with the identifier and
    the pair unchanged, but the two level arguments are the class [dict],
    which is not an empty map. *)
Theorem order_book_absent_levels_are_dict_class
  (E : Env) (tr : option TradesCallback) :
  handle_msg E None (Some CoroutineFunction) tr Examples.bare_order_book_envelope
  = ([Scheduled_order_book (JInt 7) (JStr "BTC_USD") DictClass DictClass],
     inr tt)
  /\ DictClass <> Value (JObject []).
Proof.
  split; [| discriminate].
  destruct tr; vm_compute; reflexivity.
Qed.

(* ================================================================== *)
(** * Failures while a trade is extracted *)

(** A [KeyError] in the body of the [try] ends the turn with the generic
    decode failure. *)
Lemma try_except_KeyError (evs : list event) :
  try_except (evs, inl (raised KeyError)) = (evs, inl decode_failure).
Proof. reflexivity. Qed.

(** A Broadcast payload without [@type] ends the turn with the generic
    decode failure. *)
Lemma dispatch_missing_type (E : Env)
  (ob : option OrderBookCallback) (tr : option TradesCallback)
  (fields : list (string * json)) :
  dict_lookup "@type" fields = None ->
  try_except (dispatch E ob tr (JObject fields)) = ([], inl decode_failure).
Proof. intro H. unfold dispatch, getitem. now rewrite H. Qed.

(** A trade without one of its required keys ends the turn with the
    generic decode failure; here, a missing [price]. *)
Lemma dispatch_trade_missing_price (E : Env)
  (ob : option OrderBookCallback) (callback : TradesCallback)
  (fields : list (string * json)) (times time0 id pair amount : json)
  (dt : datetime) (d : Decimal) :
  dict_lookup "@type" fields = Some (JStr "AnonymousTrade") ->
  dict_lookup "time" fields = Some times ->
  getitem0 times = inr time0 ->
  utcfromtimestamp E time0 = inr dt ->
  dict_lookup "current_order_id" fields = Some id ->
  dict_lookup "trade_pair" fields = Some pair ->
  dict_lookup "amount" fields = Some amount ->
  Decimal_new E amount = inr d ->
  dict_lookup "price" fields = None ->
  try_except (dispatch E ob (Some callback) (JObject fields))
  = ([], inl decode_failure).
Proof.
  intros Htype Htimes H0 Hdt Hid Hpair Hamount Hd Hprice.
  unfold dispatch, getitem.
  rewrite Htype, Htimes, Hid, Hpair, Hamount, Hprice.
  rewrite bind_value. cbn [py_eq_str String.eqb Ascii.eqb Bool.eqb].
  rewrite !bind_value, H0, bind_value, Hdt, !bind_value, Hd, bind_value.
  reflexivity.
Qed.

(** A trade whose [time] cannot be converted ends the turn with the
    exception of the conversion, replaced by the generic decode failure
    only when it is of a handled class: [KeyError] and the [ValueError]
    of a year out of range are, the [IndexError] of an empty list and the
    [TypeError] of a string are not. *)
Lemma dispatch_trade_time_fails (E : Env)
  (ob : option OrderBookCallback) (callback : TradesCallback)
  (fields : list (string * json)) (times : json) (e : exn) :
  dict_lookup "@type" fields = Some (JStr "AnonymousTrade") ->
  dict_lookup "time" fields = Some times ->
  match getitem0 times with
  | inl e0 => e0 = e
  | inr time0 => utcfromtimestamp E time0 = inl e
  end ->
  try_except (dispatch E ob (Some callback) (JObject fields))
  = ([], inl (if handled e then decode_failure else e)).
Proof.
  intros Htype Htimes Hfail. unfold dispatch, getitem.
  rewrite Htype, Htimes.
  rewrite bind_value. cbn [py_eq_str String.eqb Ascii.eqb Bool.eqb].
  rewrite !bind_value.
  destruct (getitem0 times) as [e0 | time0].
  - subst e0. reflexivity.
  - rewrite bind_value, Hfail. reflexivity.
Qed.

Example empty_time_raises_IndexError (E : Env) :
  try_except
    (dispatch E None (Some CoroutineFunction)
       (JObject [("@type", JStr "AnonymousTrade"); ("time", JArray [])]))
  = ([], inl (raised IndexError)).
Proof. reflexivity. Qed.

Example year_out_of_range_is_decode_failure (E : Env) :
  try_except
    (dispatch E None (Some CoroutineFunction)
       (JObject [("@type", JStr "AnonymousTrade");
                 ("time", JArray [JInt 253402300800])]))
  = ([], inl decode_failure).
Proof. reflexivity. Qed.

(** C5, at a trade whose amount is not a number. For the Broadcast
    envelope of section 8 with [amount] changed to the string abc and a
    trades callback registered, the turn ends with
    [decimal.InvalidOperation], an [ArithmeticError] that the [except]
    clause does not name: it is not replaced by the generic decode
    failure. *)
Theorem malformed_amount_raises_InvalidOperation
  (E : Env) (ob : option OrderBookCallback) :
  handle_msg E None ob (Some CoroutineFunction) Examples.bad_amount_envelope
  = ([], inl (raised InvalidOperation))
  /\ handled (raised InvalidOperation) = false
  /\ raised InvalidOperation <> decode_failure.
Proof.
  split; [| split; [reflexivity | discriminate]].
  destruct ob; vm_compute; reflexivity.
Qed.

(* ================================================================== *)
(** * Trades *)

(** The trades branch when every conversion succeeds: one scheduled
    call. *)
Lemma dispatch_trade (E : Env)
  (ob : option OrderBookCallback) (callback : TradesCallback)
  (fields : list (string * json))
  (times time0 current_order_id trade_pair amount price : json)
  (time : datetime) (a p : Decimal) :
  dict_lookup "@type" fields = Some (JStr "AnonymousTrade") ->
  dict_lookup "time" fields = Some times ->
  getitem0 times = inr time0 ->
  utcfromtimestamp E time0 = inr time ->
  dict_lookup "current_order_id" fields = Some current_order_id ->
  dict_lookup "trade_pair" fields = Some trade_pair ->
  dict_lookup "amount" fields = Some amount ->
  Decimal_new E amount = inr a ->
  dict_lookup "price" fields = Some price ->
  Decimal_new E price = inr p ->
  dispatch E ob (Some callback) (JObject fields)
  = ([Scheduled_trades time current_order_id trade_pair a p], inr tt).
Proof.
  intros Htype Htimes H0 Htime Hid Hpair Hamount Ha Hprice Hp.
  unfold dispatch, getitem.
  rewrite Htype, Htimes, Hid, Hpair, Hamount, Hprice.
  rewrite bind_value. cbn [py_eq_str String.eqb Ascii.eqb Bool.eqb].
  rewrite !bind_value, H0, bind_value, Htime, !bind_value, Ha, !bind_value, Hp.
  now rewrite bind_value.
Qed.

Lemma utcfromtimestamp_int_in_range (t : Z) :
  Calendar.MIN_TIMESTAMP <= t <= Calendar.MAX_TIMESTAMP ->
  utcfromtimestamp_int t = inr (Calendar.gmtime t).
Proof.
  intro Ht. unfold utcfromtimestamp_int.
  unfold Calendar.MIN_TIMESTAMP, Calendar.MAX_TIMESTAMP, Calendar.MIN_TIME_T,
    Calendar.MAX_TIME_T, Calendar.MIN_GMTIME, Calendar.MAX_GMTIME in *.
  repeat match goal with
         | |- context [?x <? ?y] => destruct (Z.ltb_spec x y); [lia |]
         end.
  reflexivity.
Qed.

(** An amount sent as a JSON number is a [float] before [Decimal] sees
    it: the nearest binary fraction to one tenth, not one tenth. *)
Example float_amount_is_a_binary_fraction (E : Env) :
  Decimal_new E (JFloat (S754_finite false 7205759403792794 (-56)))
  = inr (DFinite false
           1000000000000000055511151231257827021181583404541015625 (-55)).
Proof. vm_compute. reflexivity. Qed.

(* ================================================================== *)
(** * The loop over a stream of frames *)

(** The loop on a stream cut in two: the second part is read only if the
    first leaves the loop receiving, and its events follow those of the
    first. *)
Theorem reader_loop_on_concatenation
  (E : Env) (md : option MarketDataCallback)
  (ob : option OrderBookCallback) (tr : option TradesCallback)
  (ws1 ws2 : list (exn + WSMessage)) :
  reader_loop E md ob tr (ws1 ++ ws2)
  = match reader_loop E md ob tr ws1 with
    | (evs, Receiving) =>
        (evs ++ fst (reader_loop E md ob tr ws2),
         snd (reader_loop E md ob tr ws2))
    | (evs, Raised e) => (evs, Raised e)
    end.
Proof.
  destruct (reader_loop E md ob tr ws1) as [evs [| e]] eqn:H1.
  - exact (reader_loop_receiving_app E md ob tr ws1 ws2 evs H1).
  - exact (reader_loop_raised_app E md ob tr ws1 ws2 evs e H1).
Qed.

(** If the loop is left receiving, no frame was refused by
    [receive_msg]. *)
Lemma reader_loop_receiving_all_received
  (E : Env) (md : option MarketDataCallback)
  (ob : option OrderBookCallback) (tr : option TradesCallback)
  (ws : list (exn + WSMessage)) :
  snd (reader_loop E md ob tr ws) = Receiving ->
  forall received, In received ws ->
  exists msg, receive_msg E received = inr msg.
Proof.
  induction ws as [| r ws IH]; simpl; [intros _ received [] |].
  destruct (receive_msg E r) as [e | msg] eqn:Hrecv; [discriminate |].
  destruct (handle_msg E md ob tr msg) as [evs [e | u]]; [discriminate |].
  destruct (reader_loop E md ob tr ws) as [evs' o]. simpl in *.
  intros Ho received [<- | Hin].
  - now exists msg.
  - now apply IH.
Qed.

(** The loop is left receiving exactly when every frame was decoded and
    handled without exception. *)
Theorem reader_loop_receiving_iff_every_turn_completes
  (E : Env) (md : option MarketDataCallback)
  (ob : option OrderBookCallback) (tr : option TradesCallback)
  (ws : list (exn + WSMessage)) :
  snd (reader_loop E md ob tr ws) = Receiving
  <-> Forall (turn_completes E md ob tr) ws.
Proof.
  induction ws as [| r ws IH]; simpl.
  - split; [constructor | reflexivity].
  - unfold turn_completes at 1.
    destruct (receive_msg E r) as [e | msg] eqn:Hrecv.
    + simpl. split; [discriminate |].
      intro H. inversion H as [| ? ? [msg [Hm _]] _]. rewrite Hrecv in Hm.
      discriminate Hm.
    + destruct (handle_msg E md ob tr msg) as [evs [e | []]] eqn:Hh.
      * simpl. split; [discriminate |].
        intro H. inversion H as [| ? ? [msg' [Hm Hs]] _].
        rewrite Hrecv in Hm. injection Hm as <-. rewrite Hh in Hs.
        discriminate Hs.
      * destruct (reader_loop E md ob tr ws) as [evs' o]. simpl in *.
        split.
        -- intro Ho. constructor; [| now apply IH].
           exists msg. rewrite Hrecv, Hh. now split.
        -- intro H. inversion H. now apply IH.
Qed.

(** A stream with a frame of a close kind anywhere in it never leaves the
    loop receiving: the loop has ended with an exception, at that frame or
    before. *)
Theorem close_frame_anywhere_ends_loop
  (E : Env) (md : option MarketDataCallback)
  (ob : option OrderBookCallback) (tr : option TradesCallback)
  (ws : list (exn + WSMessage)) (msg : WSMessage) :
  In (inr msg) ws ->
  In (msg_type msg) (CLOSE_MESSAGES E) ->
  exists e, snd (reader_loop E md ob tr ws) = Raised e.
Proof.
  intros Hin Hkind.
  destruct (snd (reader_loop E md ob tr ws)) as [| e] eqn:Ho; [| now exists e].
  destruct (reader_loop_receiving_all_received E md ob tr ws Ho _ Hin) as [m Hm].
  rewrite (receive_msg_close_kind E msg Hkind) in Hm. discriminate Hm.
Qed.

Lemma close_frame_anywhere_ends_loop_witness :
  let E := Examples.example_env [] in
  let ws := [Examples.text_frame Examples.trade_text;
             inr Examples.close_frame;
             Examples.text_frame Examples.trade_text] in
  In (inr Examples.close_frame) ws
  /\ In CLOSE (CLOSE_MESSAGES E)
  /\ exists e, snd (reader_loop E None None None ws) = Raised e.
Proof.
  intros E ws.
  assert (Hin : In (inr Examples.close_frame) ws) by (simpl; auto).
  assert (Hkind : In (msg_type Examples.close_frame) (CLOSE_MESSAGES E))
    by (simpl; auto).
  split; [exact Hin | split; [exact Hkind |]].
  exact (close_frame_anywhere_ends_loop E None None None ws _ Hin Hkind).
Defined.

(** An exception of [ws.receive] itself (a receive timeout, say) ends the
    loop and [run] as it is, whatever frames would have followed. *)
Theorem receive_exception_ends_loop
  (E : Env) (md : option MarketDataCallback)
  (ob : option OrderBookCallback) (tr : option TradesCallback)
  (pre rest : list (exn + WSMessage)) (evs : list event) (e : exn) :
  reader_loop E md ob tr pre = (evs, Receiving) ->
  reader_loop E md ob tr (pre ++ inl e :: rest) = (evs, Raised e)
  /\ forall ws_addr,
       ws_connect E ws_addr = inr (pre ++ inl e :: rest) ->
       run E md ob tr ws_addr = (evs, Raised e).
Proof.
  intro Hpre.
  assert (Hloop : reader_loop E md ob tr (pre ++ inl e :: rest) = (evs, Raised e))
    by (apply reader_loop_receive_fails; [exact Hpre | reflexivity]).
  split; [exact Hloop |].
  intros ws_addr Hconn. now rewrite (run_connected _ _ _ _ _ _ Hconn).
Qed.

Lemma receive_exception_ends_loop_witness :
  let pre := [Examples.text_frame Examples.trade_text] in
  let rest := [Examples.text_frame Examples.trade_text] in
  let E := Examples.example_env (pre ++ inl (raised TimeoutError) :: rest) in
  let md := Some Examples.quiet_callback in
  reader_loop E md None None pre
  = ([Awaited_market_data Examples.trade_payload], Receiving)
  /\ run E md None None "wss://example"
     = ([Awaited_market_data Examples.trade_payload],
        Raised (raised TimeoutError)).
Proof.
  intros pre rest E md.
  assert (Hpre : reader_loop E md None None pre
                 = ([Awaited_market_data Examples.trade_payload], Receiving))
    by (vm_compute; reflexivity).
  split; [exact Hpre |].
  exact (proj2 (receive_exception_ends_loop E md None None pre rest _
                  (raised TimeoutError) Hpre)
               "wss://example" eq_refl).
Defined.

(** ** Callback activity per frame *)

Lemma silent_lift {A} (r : exn + A) : silent (lift r).
Proof. reflexivity. Qed.

Lemma silent_ret {A} (a : A) : silent (ret a).
Proof. reflexivity. Qed.

Lemma silent_raise {A} (e : exn) : silent (@raise A e).
Proof. reflexivity. Qed.

Lemma silent_bind {A B} (m : M A) (f : A -> M B) :
  silent m -> (forall a, silent (f a)) -> silent (bind m f).
Proof.
  unfold silent, bind. destruct m as [evs [e | a]]; simpl; intros Hm Hf.
  - exact Hm.
  - specialize (Hf a). destruct (f a) as [evs' r]. simpl in *. now subst.
Qed.


Lemma silent_try_except (body : M unit) : silent body -> silent (try_except body).
Proof. unfold silent, try_except. now destruct body as [evs [e | []]]. Qed.

(** Without callbacks a turn has no callback activity. *)
Lemma handle_msg_silent (E : Env) (msg : json) :
  silent (handle_msg E None None None msg).
Proof.
  unfold handle_msg. apply silent_try_except.
  unfold try_body, await_market_data, dispatch.
  repeat first
    [ apply silent_lift
    | apply silent_ret
    | apply silent_raise
    | apply silent_bind; [| intro]
    | match goal with
      | |- silent (if ?b then _ else _) => destruct b
      end ].
Qed.

(** With no callback registered, the default of [run], nothing is ever
    awaited or scheduled, whatever the frames. *)
Theorem no_callbacks_no_events
  (E : Env) (ws : list (exn + WSMessage)) :
  fst (reader_loop E None None None ws) = []
  /\ forall ws_addr, fst (run E None None None ws_addr) = [].
Proof.
  assert (Hloop : forall l, fst (reader_loop E None None None l) = []).
  { induction l as [| r l IH]; [reflexivity |]. simpl.
    destruct (receive_msg E r) as [e | msg]; [reflexivity |].
    pose proof (handle_msg_silent E msg) as Hs. unfold silent in Hs.
    destruct (handle_msg E None None None msg) as [evs [e | u]]; simpl in Hs;
      subst evs; [reflexivity |].
    destruct (reader_loop E None None None l) as [evs' o]. exact IH. }
  split; [apply Hloop |].
  intro ws_addr. unfold run. destruct (ws_connect E ws_addr); [reflexivity | apply Hloop].
Qed.







(* ================================================================== *)
(** * Envelopes and payloads of unexpected shape *)

(** A frame whose JSON document is not an object (a list, a string, a
    number, [true], [null]) fails at [msg['response_type']] with a
    [TypeError], which is not one of the handled classes: the loop ends
    with it, not with the generic decode failure, and no callback is
    called. *)
Theorem non_object_document_raises_TypeError
  (E : Env) (md : option MarketDataCallback)
  (ob : option OrderBookCallback) (tr : option TradesCallback)
  (pre rest : list (exn + WSMessage)) (evs : list event)
  (received : exn + WSMessage) (msg : json) :
  reader_loop E md ob tr pre = (evs, Receiving) ->
  receive_msg E received = inr msg ->
  (forall members, msg <> JObject members) ->
  handle_msg E md ob tr msg = ([], inl (raised TypeError))
  /\ reader_loop E md ob tr (pre ++ received :: rest)
     = (evs, Raised (raised TypeError)).
Proof.
  intros Hpre Hrecv Hshape.
  assert (Hh : handle_msg E md ob tr msg = ([], inl (raised TypeError))).
  { destruct msg; try reflexivity. now contradiction (Hshape members). }
  split; [exact Hh |].
  rewrite (reader_loop_handle_fails E md ob tr pre received rest evs _ _ _
             Hpre Hrecv Hh).
  now rewrite app_nil_r.
Qed.

Lemma non_object_document_raises_TypeError_witness :
  let E := mkEnv [CLOSE; CLOSING; CLOSED; ERROR] []
                 (fun data =>
                    match data with
                    | DataStr s =>
                        if String.eqb s "[1, 2]"
                        then inr (JArray [JInt 1; JInt 2])
                        else inl (raised JSONDecodeError)
                    | _ => inl (raised TypeError)
                    end)
                 (fun _ => inl (raised ValueError))
                 (fun _ => inl (raised ValueError))
                 (fun _ => inr []) in
  let received := Examples.text_frame "[1, 2]" in
  let md := Some Examples.quiet_callback in
  reader_loop E md None None [] = ([], Receiving)
  /\ receive_msg E received = inr (JArray [JInt 1; JInt 2])
  /\ reader_loop E md None None ([] ++ received :: [received])
     = ([], Raised (raised TypeError)).
Proof.
  intros E received md.
  split; [reflexivity | split; [reflexivity |]].
  refine (proj2 (non_object_document_raises_TypeError E md None None [] [received]
                   [] received (JArray [JInt 1; JInt 2]) eq_refl eq_refl _)).
  intros members H. discriminate H.
Defined.

(** An envelope object without [response_type], or a Broadcast envelope
    without [data], raises [KeyError] before any callback: the turn ends
    with the generic decode failure and no event. *)
Theorem envelope_missing_key_is_decode_failure
  (E : Env) (md : option MarketDataCallback)
  (ob : option OrderBookCallback) (tr : option TradesCallback)
  (members : list (string * json)) :
  dict_lookup "response_type" members = None
  \/ (dict_lookup "response_type" members = Some (JStr "BROADCAST")
      /\ dict_lookup "data" members = None) ->
  handle_msg E md ob tr (JObject members) = ([], inl decode_failure).
Proof.
  intros [Hrt | [Hrt Hdata]]; unfold handle_msg, try_body, getitem; rewrite Hrt.
  - reflexivity.
  - rewrite bind_value. simpl ServerMessageType_getitem. rewrite bind_value.
    cbn [negb ServerMessageType_eqb]. rewrite Hdata. reflexivity.
Qed.

Lemma envelope_missing_key_is_decode_failure_witness :
  let E := Examples.example_env [] in
  let md := Some Examples.quiet_callback in
  let cb := Some CoroutineFunction in
  handle_msg E md cb cb (JObject [("data", Examples.trade_payload)])
  = ([], inl decode_failure)
  /\ handle_msg E md cb cb (JObject [("response_type", JStr "BROADCAST")])
     = ([], inl decode_failure).
Proof.
  intros E md cb. split.
  - exact (envelope_missing_key_is_decode_failure E md cb cb
             [("data", Examples.trade_payload)] (or_introl eq_refl)).
  - exact (envelope_missing_key_is_decode_failure E md cb cb
             [("response_type", JStr "BROADCAST")]
             (or_intror (conj eq_refl eq_refl))).
Defined.

Lemma unhashable_response_type_raises_TypeError_witness :
  let E := Examples.example_env [] in
  let members := [("response_type", JArray [JStr "BROADCAST"]);
                  ("data", Examples.trade_payload)] in
  dict_lookup "response_type" members = Some (JArray [JStr "BROADCAST"])
  /\ hashable (JArray [JStr "BROADCAST"]) = false
  /\ handle_msg E (Some Examples.quiet_callback) None None (JObject members)
     = ([], inl (raised TypeError)).
Proof.
  intros E members. split; [reflexivity | split; [reflexivity |]].
  exact (unhashable_response_type_raises_TypeError
           E (Some Examples.quiet_callback) None None members
           (JArray [JStr "BROADCAST"]) eq_refl eq_refl).
Defined.

(** A Broadcast envelope whose payload is not an object: the market-data
    callback, when registered, is still awaited on it; then
    [payload['@type']] fails with a [TypeError] that ends the turn as it
    is. *)
Theorem non_object_payload_raises_TypeError
  (E : Env) (md : option MarketDataCallback)
  (ob : option OrderBookCallback) (tr : option TradesCallback)
  (msg payload payload_after : json) :
  broadcast_envelope msg payload ->
  market_data_returns md payload payload_after ->
  (forall fields, payload_after <> JObject fields) ->
  handle_msg E md ob tr msg
  = (market_data_events md payload, inl (raised TypeError)).
Proof.
  intros Hb Hmd Hshape.
  rewrite (handle_broadcast_returns E md ob tr _ _ _ Hb Hmd).
  assert (Hd : dispatch E ob tr payload_after = ([], inl (raised TypeError))).
  { destruct payload_after; try reflexivity. now contradiction (Hshape members). }
  rewrite Hd. simpl. now rewrite app_nil_r.
Qed.

Lemma non_object_payload_raises_TypeError_witness :
  let E := Examples.example_env [] in
  let msg := JObject [("response_type", JStr "BROADCAST"); ("data", JNull)] in
  broadcast_envelope msg JNull
  /\ handle_msg E (Some Examples.quiet_callback) None None msg
     = ([Awaited_market_data JNull], inl (raised TypeError)).
Proof.
  intros E msg.
  assert (Hb : broadcast_envelope msg JNull)
    by (eexists; split; [reflexivity | split; reflexivity]).
  split; [exact Hb |].
  refine (non_object_payload_raises_TypeError
            E (Some Examples.quiet_callback) None None msg JNull JNull
            Hb eq_refl _).
  intros fields H. discriminate H.
Defined.

(* ================================================================== *)
(** * Order-book updates and trades, in general *)

(** A payload of a known type whose callback is not registered is not
    looked into: whatever else it holds or lacks, the turn completes and
    nothing is scheduled. *)
Theorem unregistered_callback_skips_extraction
  (E : Env) (md : option MarketDataCallback)
  (ob : option OrderBookCallback) (tr : option TradesCallback)
  (msg payload : json) (fields : list (string * json)) :
  broadcast_envelope msg payload ->
  market_data_returns md payload (JObject fields) ->
  (dict_lookup "@type" fields = Some (JStr "OrderBookAgg") /\ ob = None)
  \/ (dict_lookup "@type" fields = Some (JStr "AnonymousTrade") /\ tr = None) ->
  handle_msg E md ob tr msg = (market_data_events md payload, inr tt).
Proof.
  intros Hb Hmd Hcase.
  rewrite (handle_broadcast_returns E md ob tr _ _ _ Hb Hmd).
  assert (Hd : dispatch E ob tr (JObject fields) = ([], inr tt)).
  { unfold dispatch, getitem.
    destruct Hcase as [[Htype ->] | [Htype ->]]; rewrite Htype, bind_value;
      cbn [py_eq_str String.eqb Ascii.eqb Bool.eqb]; [reflexivity |].
    now rewrite bind_value. }
  rewrite Hd. simpl. now rewrite app_nil_r.
Qed.

Lemma unregistered_callback_skips_extraction_witness :
  let E := Examples.example_env [] in
  let payload := JObject [("@type", JStr "AnonymousTrade")] in
  let msg := JObject [("response_type", JStr "BROADCAST"); ("data", payload)] in
  broadcast_envelope msg payload
  /\ handle_msg E (Some Examples.quiet_callback) (Some CoroutineFunction) None msg
     = ([Awaited_market_data payload], inr tt).
Proof.
  intros E payload msg.
  assert (Hb : broadcast_envelope msg payload)
    by (eexists; split; [reflexivity | split; reflexivity]).
  split; [exact Hb |].
  exact (unregistered_callback_skips_extraction
           E (Some Examples.quiet_callback) (Some CoroutineFunction) None
           msg payload _ Hb eq_refl (or_intror (conj eq_refl eq_refl))).
Defined.

(** An order-book update with its callback registered and its two
    required keys present: after the market-data step, exactly one call is
    scheduled, with [current_order_id] and [trade_pair] as the payload has
    them and with [buy_levels] and [sell_levels] as the payload has them
    when present; the turn completes. *)
Theorem order_book_call_scheduled_once
  (E : Env) (md : option MarketDataCallback)
  (callback : OrderBookCallback) (tr : option TradesCallback)
  (msg payload : json) (fields : list (string * json))
  (current_order_id trade_pair : json) :
  broadcast_envelope msg payload ->
  market_data_returns md payload (JObject fields) ->
  dict_lookup "@type" fields = Some (JStr "OrderBookAgg") ->
  dict_lookup "current_order_id" fields = Some current_order_id ->
  dict_lookup "trade_pair" fields = Some trade_pair ->
  exists buy_levels sell_levels,
    handle_msg E md (Some callback) tr msg
    = (market_data_events md payload
         ++ [Scheduled_order_book current_order_id trade_pair
                                  buy_levels sell_levels],
       inr tt)
    /\ (forall v, dict_lookup "buy_levels" fields = Some v -> buy_levels = Value v)
    /\ (forall v, dict_lookup "sell_levels" fields = Some v -> sell_levels = Value v).
Proof.
  intros Hb Hmd Htype Hid Hpair.
  eexists. eexists. split; [| split].
  - rewrite (handle_broadcast_returns E md (Some callback) tr _ _ _ Hb Hmd).
    rewrite (dispatch_order_book E callback tr fields _ _ Htype Hid Hpair).
    reflexivity.
  - intros v Hv. now rewrite Hv.
  - intros v Hv. now rewrite Hv.
Qed.

Lemma order_book_call_scheduled_once_witness :
  let E := Examples.example_env [] in
  let bids := JObject [("30000.5", JStr "1.25")] in
  let payload :=
    JObject [("@type", JStr "OrderBookAgg"); ("current_order_id", JInt 7);
             ("trade_pair", JStr "BTC_USD"); ("buy_levels", bids);
             ("sell_levels", JObject [])] in
  let msg := JObject [("response_type", JStr "BROADCAST"); ("data", payload)] in
  broadcast_envelope msg payload
  /\ exists buy_levels sell_levels,
       handle_msg E None (Some CoroutineFunction) None msg
       = ([Scheduled_order_book (JInt 7) (JStr "BTC_USD") buy_levels sell_levels],
          inr tt)
       /\ buy_levels = Value bids
       /\ sell_levels = Value (JObject []).
Proof.
  intros E bids payload msg.
  assert (Hb : broadcast_envelope msg payload)
    by (eexists; split; [reflexivity | split; reflexivity]).
  split; [exact Hb |].
  destruct (order_book_call_scheduled_once
              E None CoroutineFunction None msg payload _ (JInt 7) (JStr "BTC_USD")
              Hb eq_refl eq_refl eq_refl eq_refl)
    as [buy [sell [Hh [Hbuy Hsell]]]].
  exists buy, sell. split; [exact Hh | split].
  - exact (Hbuy bids eq_refl).
  - exact (Hsell (JObject []) eq_refl).
Defined.

(** An order-book update with its callback registered that lacks
    [current_order_id] or [trade_pair]: [KeyError], hence the generic
    decode failure, and nothing is scheduled. *)
Theorem order_book_missing_key_is_decode_failure
  (E : Env) (md : option MarketDataCallback)
  (callback : OrderBookCallback) (tr : option TradesCallback)
  (msg payload : json) (fields : list (string * json)) :
  broadcast_envelope msg payload ->
  market_data_returns md payload (JObject fields) ->
  dict_lookup "@type" fields = Some (JStr "OrderBookAgg") ->
  dict_lookup "current_order_id" fields = None
  \/ dict_lookup "trade_pair" fields = None ->
  handle_msg E md (Some callback) tr msg
  = (market_data_events md payload, inl decode_failure).
Proof.
  intros Hb Hmd Htype Hmiss.
  rewrite (handle_broadcast_returns E md (Some callback) tr _ _ _ Hb Hmd).
  assert (Hd : try_except (dispatch E (Some callback) tr (JObject fields))
               = ([], inl decode_failure)).
  { unfold dispatch, getitem. rewrite Htype, bind_value.
    cbn [py_eq_str String.eqb Ascii.eqb Bool.eqb].
    destruct (dict_lookup "current_order_id" fields) as [id |]; [| reflexivity].
    rewrite bind_value.
    destruct Hmiss as [Hmiss | Hmiss]; [discriminate Hmiss |].
    rewrite Hmiss. reflexivity. }
  rewrite Hd. simpl. now rewrite app_nil_r.
Qed.

Lemma order_book_missing_key_is_decode_failure_witness :
  let E := Examples.example_env [] in
  let payload :=
    JObject [("@type", JStr "OrderBookAgg"); ("current_order_id", JInt 7)] in
  let msg := JObject [("response_type", JStr "BROADCAST"); ("data", payload)] in
  broadcast_envelope msg payload
  /\ handle_msg E (Some Examples.quiet_callback) (Some CoroutineFunction) None msg
     = ([Awaited_market_data payload], inl decode_failure).
Proof.
  intros E payload msg.
  assert (Hb : broadcast_envelope msg payload)
    by (eexists; split; [reflexivity | split; reflexivity]).
  split; [exact Hb |].
  exact (order_book_missing_key_is_decode_failure
           E (Some Examples.quiet_callback) CoroutineFunction None
           msg payload _ Hb eq_refl eq_refl (or_intror eq_refl)).
Defined.

(** The head of the trades branch: with the callback registered, the
    first thing looked at is [time]. *)
Lemma dispatch_trade_head (E : Env)
  (ob : option OrderBookCallback) (callback : TradesCallback)
  (fields : list (string * json)) :
  dict_lookup "@type" fields = Some (JStr "AnonymousTrade") ->
  dispatch E ob (Some callback) (JObject fields)
  = (times <- lift (getitem (JObject fields) "time") ;;
     time0 <- lift (getitem0 times) ;;
     time <- lift (utcfromtimestamp E time0) ;;
     current_order_id <- lift (getitem (JObject fields) "current_order_id") ;;
     trade_pair <- lift (getitem (JObject fields) "trade_pair") ;;
     amount_str <- lift (getitem (JObject fields) "amount") ;;
     amount <- lift (Decimal_new E amount_str) ;;
     price_str <- lift (getitem (JObject fields) "price") ;;
     price <- lift (Decimal_new E price_str) ;;
     emit (Scheduled_trades time current_order_id trade_pair amount price)).
Proof.
  intro Htype. unfold dispatch. unfold getitem at 1. rewrite Htype, bind_value.
  cbn [py_eq_str String.eqb Ascii.eqb Bool.eqb].
  unfold getitem at 1. rewrite Htype, bind_value.
  cbn [py_eq_str String.eqb Ascii.eqb Bool.eqb]. reflexivity.
Qed.

(** A trade with its callback registered that lacks one of [time],
    [current_order_id], [trade_pair], [amount], [price], while what it
    does hold of [time] and [amount] converts: [KeyError], hence the
    generic decode failure, and nothing is scheduled. *)
Theorem trade_missing_key_is_decode_failure
  (E : Env) (md : option MarketDataCallback)
  (ob : option OrderBookCallback) (callback : TradesCallback)
  (msg payload : json) (fields : list (string * json)) :
  broadcast_envelope msg payload ->
  market_data_returns md payload (JObject fields) ->
  dict_lookup "@type" fields = Some (JStr "AnonymousTrade") ->
  (forall times, dict_lookup "time" fields = Some times ->
     exists time0 time,
       getitem0 times = inr time0 /\ utcfromtimestamp E time0 = inr time) ->
  (forall v, dict_lookup "amount" fields = Some v ->
     exists d, Decimal_new E v = inr d) ->
  dict_lookup "time" fields = None
  \/ dict_lookup "current_order_id" fields = None
  \/ dict_lookup "trade_pair" fields = None
  \/ dict_lookup "amount" fields = None
  \/ dict_lookup "price" fields = None ->
  handle_msg E md ob (Some callback) msg
  = (market_data_events md payload, inl decode_failure).
Proof.
  intros Hb Hmd Htype Htime Hamount Hmiss.
  rewrite (handle_broadcast_returns E md ob (Some callback) _ _ _ Hb Hmd).
  assert (Hd : try_except (dispatch E ob (Some callback) (JObject fields))
               = ([], inl decode_failure)).
  { rewrite (dispatch_trade_head E ob callback fields Htype). unfold getitem.
    destruct (dict_lookup "time" fields) as [times |]; [| reflexivity].
    destruct (Htime times eq_refl) as [time0 [time [H0 Ht]]].
    rewrite bind_value, H0, bind_value, Ht, bind_value.
    destruct (dict_lookup "current_order_id" fields) as [id |]; [| reflexivity].
    rewrite bind_value.
    destruct (dict_lookup "trade_pair" fields) as [pair |]; [| reflexivity].
    rewrite bind_value.
    destruct (dict_lookup "amount" fields) as [a |]; [| reflexivity].
    destruct (Hamount a eq_refl) as [d Hdec].
    rewrite bind_value, Hdec, bind_value.
    destruct (dict_lookup "price" fields) as [p |]; [| reflexivity].
    destruct Hmiss as [H | [H | [H | [H | H]]]]; discriminate H. }
  rewrite Hd. simpl. now rewrite app_nil_r.
Qed.

Lemma trade_missing_key_is_decode_failure_witness :
  let E := Examples.example_env [] in
  let payload :=
    JObject [("@type", JStr "AnonymousTrade");
             ("time", JArray [JInt 1700000000]);
             ("current_order_id", JInt 42);
             ("trade_pair", JStr "BTC_USD");
             ("amount", JStr "1.5")] in
  let msg := JObject [("response_type", JStr "BROADCAST"); ("data", payload)] in
  broadcast_envelope msg payload
  /\ handle_msg E (Some Examples.quiet_callback) None (Some CoroutineFunction) msg
     = ([Awaited_market_data payload], inl decode_failure).
Proof.
  intros E payload msg.
  assert (Hb : broadcast_envelope msg payload)
    by (eexists; split; [reflexivity | split; reflexivity]).
  split; [exact Hb |].
  refine (trade_missing_key_is_decode_failure
            E (Some Examples.quiet_callback) None CoroutineFunction
            msg payload _ Hb eq_refl eq_refl _ _
            (or_intror (or_intror (or_intror (or_intror eq_refl))))).
  - intros times H. injection H as <-.
    eexists. eexists. split; [reflexivity | vm_compute; reflexivity].
  - intros v H. injection H as <-. eexists. vm_compute. reflexivity.
Defined.

(** A trade with its callback registered whose [time] is present but
    cannot be converted ([time[0]] fails, or [utcfromtimestamp] of it
    does): the exception of that step ends the turn, whatever the other
    fields are, replaced by the generic decode failure only if it is of a
    handled class. An empty list gives an [IndexError] and a string a
    [TypeError], which both pass as they are. *)
Theorem trade_time_failure_surfaces
  (E : Env) (md : option MarketDataCallback)
  (ob : option OrderBookCallback) (callback : TradesCallback)
  (msg payload : json) (fields : list (string * json)) (times : json) (e : exn) :
  broadcast_envelope msg payload ->
  market_data_returns md payload (JObject fields) ->
  dict_lookup "@type" fields = Some (JStr "AnonymousTrade") ->
  dict_lookup "time" fields = Some times ->
  match getitem0 times with
  | inl e0 => e0 = e
  | inr time0 => utcfromtimestamp E time0 = inl e
  end ->
  handle_msg E md ob (Some callback) msg
  = (market_data_events md payload,
     inl (if handled e then decode_failure else e)).
Proof.
  intros Hb Hmd Htype Htimes Hfail.
  rewrite (handle_broadcast_returns E md ob (Some callback) _ _ _ Hb Hmd).
  rewrite (dispatch_trade_time_fails E ob callback fields times e
             Htype Htimes Hfail).
  simpl. now rewrite app_nil_r.
Qed.

Lemma trade_time_failure_surfaces_witness :
  let E := Examples.example_env [] in
  let empty :=
    JObject [("@type", JStr "AnonymousTrade"); ("time", JArray [])] in
  let text :=
    JObject [("@type", JStr "AnonymousTrade");
             ("time", JArray [JStr "1700000000"])] in
  let envelope payload :=
    JObject [("response_type", JStr "BROADCAST"); ("data", payload)] in
  broadcast_envelope (envelope empty) empty
  /\ broadcast_envelope (envelope text) text
  /\ handle_msg E None None (Some CoroutineFunction) (envelope empty)
     = ([], inl (raised IndexError))
  /\ handle_msg E None None (Some CoroutineFunction) (envelope text)
     = ([], inl (raised TypeError)).
Proof.
  intros E empty text envelope.
  assert (Hb1 : broadcast_envelope (envelope empty) empty)
    by (eexists; split; [reflexivity | split; reflexivity]).
  assert (Hb2 : broadcast_envelope (envelope text) text)
    by (eexists; split; [reflexivity | split; reflexivity]).
  split; [exact Hb1 | split; [exact Hb2 | split]].
  - exact (trade_time_failure_surfaces E None None CoroutineFunction
             (envelope empty) empty _ (JArray []) (raised IndexError)
             Hb1 eq_refl eq_refl eq_refl eq_refl).
  - exact (trade_time_failure_surfaces E None None CoroutineFunction
             (envelope text) text _ (JArray [JStr "1700000000"]) (raised TypeError)
             Hb2 eq_refl eq_refl eq_refl eq_refl).
Defined.

(** A trade whose [time[0]] is an integer that [gmtime] can break down
    but whose year falls outside 1 to 9999 (milliseconds sent for
    seconds, say): [utcfromtimestamp] raises [ValueError], hence the
    generic decode failure, and nothing is scheduled. *)
Theorem trade_year_out_of_range_is_decode_failure
  (E : Env) (md : option MarketDataCallback)
  (ob : option OrderBookCallback) (callback : TradesCallback)
  (msg payload : json) (fields : list (string * json))
  (t : Z) (more : list json) :
  broadcast_envelope msg payload ->
  market_data_returns md payload (JObject fields) ->
  dict_lookup "@type" fields = Some (JStr "AnonymousTrade") ->
  dict_lookup "time" fields = Some (JArray (JInt t :: more)) ->
  Calendar.MIN_GMTIME <= t <= Calendar.MAX_GMTIME ->
  t < Calendar.MIN_TIMESTAMP \/ Calendar.MAX_TIMESTAMP < t ->
  handle_msg E md ob (Some callback) msg
  = (market_data_events md payload, inl decode_failure).
Proof.
  intros Hb Hmd Htype Htimes Hg Hy.
  rewrite (handle_broadcast_returns E md ob (Some callback) _ _ _ Hb Hmd).
  rewrite (dispatch_trade_time_fails E ob callback fields _ (raised ValueError)
             Htype Htimes).
  - simpl. now rewrite app_nil_r.
  - simpl. unfold utcfromtimestamp_int.
    unfold Calendar.MIN_TIMESTAMP, Calendar.MAX_TIMESTAMP, Calendar.MIN_TIME_T,
      Calendar.MAX_TIME_T, Calendar.MIN_GMTIME, Calendar.MAX_GMTIME in *.
    destruct (Z.ltb_spec t (- 2 ^ 63)); [lia |].
    destruct (Z.ltb_spec (2 ^ 63 - 1) t); [lia |].
    destruct (Z.ltb_spec t (-67768040609740800)); [lia |].
    destruct (Z.ltb_spec 67768036191676799 t); [lia |].
    destruct (Z.ltb_spec t (-62135596800)); [reflexivity |].
    destruct (Z.ltb_spec 253402300799 t); [reflexivity | lia].
Qed.

Lemma trade_year_out_of_range_is_decode_failure_witness :
  let E := Examples.example_env [] in
  let payload :=
    JObject [("@type", JStr "AnonymousTrade");
             ("time", JArray [JInt 1700000000000]);
             ("current_order_id", JInt 42);
             ("trade_pair", JStr "BTC_USD");
             ("amount", JStr "1.5");
             ("price", JStr "30000.25")] in
  let msg := JObject [("response_type", JStr "BROADCAST"); ("data", payload)] in
  broadcast_envelope msg payload
  /\ Calendar.MAX_TIMESTAMP < 1700000000000 <= Calendar.MAX_GMTIME
  /\ handle_msg E None None (Some CoroutineFunction) msg
     = ([], inl decode_failure).
Proof.
  intros E payload msg.
  assert (Hb : broadcast_envelope msg payload)
    by (eexists; split; [reflexivity | split; reflexivity]).
  assert (Hr : Calendar.MAX_TIMESTAMP < 1700000000000 <= Calendar.MAX_GMTIME)
    by (split; vm_compute; [reflexivity | discriminate]).
  split; [exact Hb | split; [exact Hr |]].
  refine (trade_year_out_of_range_is_decode_failure
            E None None CoroutineFunction msg payload _ 1700000000000 []
            Hb eq_refl eq_refl eq_refl _ (or_intror (proj1 Hr))).
  split; [vm_compute; discriminate | exact (proj2 Hr)].
Defined.

(** A trade whose [amount], or whose [price] after a convertible
    [amount], is a string that [Decimal] does not accept, everything
    before it being in order: [decimal.InvalidOperation] ends the turn as
    it is, not replaced by the generic decode failure, and nothing is
    scheduled. *)
Theorem malformed_decimal_string_is_not_wrapped
  (E : Env) (md : option MarketDataCallback)
  (ob : option OrderBookCallback) (callback : TradesCallback)
  (msg payload : json) (fields : list (string * json))
  (times time0 current_order_id trade_pair amount : json) (time : datetime) :
  broadcast_envelope msg payload ->
  market_data_returns md payload (JObject fields) ->
  dict_lookup "@type" fields = Some (JStr "AnonymousTrade") ->
  dict_lookup "time" fields = Some times ->
  getitem0 times = inr time0 ->
  utcfromtimestamp E time0 = inr time ->
  dict_lookup "current_order_id" fields = Some current_order_id ->
  dict_lookup "trade_pair" fields = Some trade_pair ->
  dict_lookup "amount" fields = Some amount ->
  (exists s, amount = JStr s /\ DecimalSyntax.parse s = None)
  \/ (exists d s, Decimal_new E amount = inr d
                  /\ dict_lookup "price" fields = Some (JStr s)
                  /\ DecimalSyntax.parse s = None) ->
  handle_msg E md ob (Some callback) msg
  = (market_data_events md payload, inl (raised InvalidOperation)).
Proof.
  intros Hb Hmd Htype Htimes H0 Ht Hid Hpair Hamount Hbad.
  rewrite (handle_broadcast_returns E md ob (Some callback) _ _ _ Hb Hmd).
  assert (Hd : dispatch E ob (Some callback) (JObject fields)
               = ([], inl (raised InvalidOperation))).
  { rewrite (dispatch_trade_head E ob callback fields Htype). unfold getitem.
    rewrite Htimes, bind_value, H0, bind_value, Ht, bind_value.
    rewrite Hid, bind_value, Hpair, bind_value, Hamount, bind_value.
    destruct Hbad as [[s [-> Hs]] | [d [s [Hdec [Hprice Hs]]]]].
    - simpl Decimal_new. unfold Decimal_from_str. rewrite Hs. reflexivity.
    - rewrite Hdec, bind_value, Hprice, bind_value.
      simpl Decimal_new. unfold Decimal_from_str. rewrite Hs. reflexivity. }
  rewrite Hd. simpl. now rewrite app_nil_r.
Qed.

Lemma malformed_decimal_string_is_not_wrapped_witness :
  let E := Examples.example_env [] in
  let payload :=
    JObject [("@type", JStr "AnonymousTrade");
             ("time", JArray [JInt 1700000000]);
             ("current_order_id", JInt 42);
             ("trade_pair", JStr "BTC_USD");
             ("amount", JStr "1.5");
             ("price", JStr "30,000.25")] in
  let msg := JObject [("response_type", JStr "BROADCAST"); ("data", payload)] in
  broadcast_envelope msg payload
  /\ DecimalSyntax.parse "30,000.25" = None
  /\ handle_msg E (Some Examples.quiet_callback) None (Some CoroutineFunction) msg
     = ([Awaited_market_data payload], inl (raised InvalidOperation)).
Proof.
  intros E payload msg.
  assert (Hb : broadcast_envelope msg payload)
    by (eexists; split; [reflexivity | split; reflexivity]).
  assert (Hs : DecimalSyntax.parse "30,000.25" = None) by (vm_compute; reflexivity).
  split; [exact Hb | split; [exact Hs |]].
  refine (malformed_decimal_string_is_not_wrapped
            E (Some Examples.quiet_callback) None CoroutineFunction msg payload _
            (JArray [JInt 1700000000]) (JInt 1700000000) (JInt 42)
            (JStr "BTC_USD") (JStr "1.5") (Calendar.gmtime 1700000000)
            Hb eq_refl eq_refl eq_refl eq_refl _ eq_refl eq_refl eq_refl _).
  - vm_compute. reflexivity.
  - right. exists (DFinite false 15 (-1)), "30,000.25".
    split; [vm_compute; reflexivity | split; [reflexivity | exact Hs]].
Defined.

(* ================================================================== *)
(** * Timestamps *)

(** Within the years 1 to 9999, different integer timestamps give
    different calendar times. *)
Theorem utcfromtimestamp_int_distinguishes
  (t1 t2 : Z) :
  Calendar.MIN_TIMESTAMP <= t1 <= Calendar.MAX_TIMESTAMP ->
  Calendar.MIN_TIMESTAMP <= t2 <= Calendar.MAX_TIMESTAMP ->
  t1 <> t2 ->
  utcfromtimestamp_int t1 <> utcfromtimestamp_int t2.
Proof.
  intros H1 H2 Hne Heq.
  rewrite (utcfromtimestamp_int_in_range t1 H1) in Heq.
  rewrite (utcfromtimestamp_int_in_range t2 H2) in Heq.
  injection Heq as Heq.
  destruct (CalendarFacts.gmtime_spec t1 H1) as [_ Hs1].
  destruct (CalendarFacts.gmtime_spec t2 H2) as [_ Hs2].
  rewrite Heq in Hs1. congruence.
Qed.

Lemma utcfromtimestamp_int_distinguishes_witness :
  Calendar.MIN_TIMESTAMP <= 1700000000 <= Calendar.MAX_TIMESTAMP
  /\ Calendar.MIN_TIMESTAMP <= 1700000001 <= Calendar.MAX_TIMESTAMP
  /\ utcfromtimestamp_int 1700000000 <> utcfromtimestamp_int 1700000001.
Proof.
  assert (H1 : Calendar.MIN_TIMESTAMP <= 1700000000 <= Calendar.MAX_TIMESTAMP)
    by (split; vm_compute; discriminate).
  assert (H2 : Calendar.MIN_TIMESTAMP <= 1700000001 <= Calendar.MAX_TIMESTAMP)
    by (split; vm_compute; discriminate).
  split; [exact H1 | split; [exact H2 |]].
  apply (utcfromtimestamp_int_distinguishes _ _ H1 H2). discriminate.
Defined.

(* ================================================================== *)
(** * setup.py *)

(** The version guard looks at the major and minor numbers only: it
    raises [ImportError] exactly for the versions below 3.6, and reaches
    [setup] for every other one, whatever the micro number, release level
    and serial; the comparison itself never fails. *)
Theorem version_guard_rejects_below_3_6
  (major minor micro serial : Z) (releaselevel : string) :
  let info := Setup.version_info major minor micro releaselevel serial in
  (Setup.version_guard info = Setup.RaisesImportError
   <-> major < 3 \/ (major = 3 /\ minor < 6))
  /\ (Setup.version_guard info = Setup.CallsSetup
      <-> 3 < major \/ (major = 3 /\ 6 <= minor)).
Proof.
  unfold Setup.version_guard, Setup.version_info. simpl.
  destruct (Z.eqb_spec major 3) as [-> | Hm].
  - destruct (Z.eqb_spec minor 6) as [-> | Hn].
    + split; split; intro H; try discriminate H; try lia.
      reflexivity.
    + simpl. destruct (Z.ltb_spec minor 6) as [Hlt | Hge]; split; split; intro H;
        try discriminate H; try reflexivity; lia.
  - simpl. destruct (Z.ltb_spec major 3) as [Hlt | Hge]; split; split; intro H;
      try discriminate H; try reflexivity; lia.
Qed.

(* ================================================================== *)
(** * Trades: what the callback is handed *)

Lemma utcfromtimestamp_int_returns (t : Z) (time : datetime) :
  utcfromtimestamp_int t = inr time ->
  Calendar.MIN_TIMESTAMP <= t <= Calendar.MAX_TIMESTAMP
  /\ time = Calendar.gmtime t.
Proof.
  unfold utcfromtimestamp_int.
  destruct (_ || _); [discriminate |].
  destruct (_ || _); [discriminate |].
  destruct (orb _ _) eqn:Hrange; [discriminate |].
  intro H. injection H as <-. apply orb_false_iff in Hrange.
  destruct Hrange as [H1 H2]. apply Z.ltb_ge in H1, H2. now repeat split.
Qed.

(** The trades branch on a payload whose [time] starts with an integer
    and whose [amount] and [price] are decimal strings: each conversion
    in turn either goes through or ends the branch. *)
Lemma dispatch_trade_decimal_strings (E : Env)
  (ob : option OrderBookCallback) (callback : TradesCallback)
  (fields : list (string * json)) (t : Z) (more : list json)
  (current_order_id trade_pair : json)
  (amount price : string) (amount_read price_read : numeral) :
  dict_lookup "@type" fields = Some (JStr "AnonymousTrade") ->
  dict_lookup "time" fields = Some (JArray (JInt t :: more)) ->
  dict_lookup "current_order_id" fields = Some current_order_id ->
  dict_lookup "trade_pair" fields = Some trade_pair ->
  dict_lookup "amount" fields = Some (JStr amount) ->
  decimal_string amount amount_read ->
  dict_lookup "price" fields = Some (JStr price) ->
  decimal_string price price_read ->
  dispatch E ob (Some callback) (JObject fields)
  = match utcfromtimestamp_int t with
    | inl e => ([], inl e)
    | inr time =>
        if DecimalSyntax.within_limits
             (num_int amount_read ++ frac_digits amount_read)
             (numeral_exponent amount_read)
           && DecimalSyntax.within_limits
                (num_int price_read ++ frac_digits price_read)
                (numeral_exponent price_read)
        then ([Scheduled_trades time current_order_id trade_pair
                 (Decimal_of_numeral amount_read)
                 (Decimal_of_numeral price_read)],
              inr tt)
        else ([], inl (raised InvalidOperation))
    end.
Proof.
  intros Htype Htimes Hid Hpair Hamount Ha Hprice Hp.
  rewrite (dispatch_trade_head E ob callback fields Htype). unfold getitem.
  rewrite Htimes, Hid, Hpair, Hamount, Hprice.
  rewrite bind_value. cbn [getitem0]. rewrite bind_value. cbn [utcfromtimestamp].
  destruct (utcfromtimestamp_int t) as [e | time]; [reflexivity |].
  rewrite !bind_value. cbn [Decimal_new].
  rewrite (DecimalFacts.Decimal_from_str_decimal_string _ _ Ha).
  destruct (DecimalSyntax.within_limits
              (num_int amount_read ++ frac_digits amount_read) _);
    [| reflexivity].
  rewrite !bind_value. cbn [Decimal_new].
  rewrite (DecimalFacts.Decimal_from_str_decimal_string _ _ Hp).
  destruct (DecimalSyntax.within_limits
              (num_int price_read ++ frac_digits price_read) _);
    [| reflexivity].
  now rewrite bind_value.
Qed.

(** C2. On a Broadcast envelope whose market-data step returns and whose
    payload is a trade ([@type] AnonymousTrade, [time] a list that starts
    with an integer number of seconds, [current_order_id] and
    [trade_pair] present, [amount] and [price] decimal strings: a sign,
    digits, a point, an exponent part, in any of the forms [Decimal]
    reads), with a trades callback registered:
    - every trades call the turn schedules carries the identifier and
      the pair of the payload, an amount and a price that are [Decimal]s
      standing for exactly the rational numbers the two strings denote,
      and a time that is a calendar time that exists and lies [time[0]]
      seconds after the epoch;
    - when [time[0]] falls within the years 1 to 9999 and the two numbers
      are within what a [Decimal] can hold, the turn schedules exactly
      one such call and goes on. *)
Theorem trade_conversion_is_exact
  (E : Env) (md : option MarketDataCallback)
  (ob : option OrderBookCallback) (callback : TradesCallback)
  (msg payload : json) (fields : list (string * json))
  (t : Z) (more : list json) (current_order_id trade_pair : json)
  (amount price : string) (amount_read price_read : numeral) :
  broadcast_envelope msg payload ->
  market_data_returns md payload (JObject fields) ->
  dict_lookup "@type" fields = Some (JStr "AnonymousTrade") ->
  dict_lookup "time" fields = Some (JArray (JInt t :: more)) ->
  dict_lookup "current_order_id" fields = Some current_order_id ->
  dict_lookup "trade_pair" fields = Some trade_pair ->
  dict_lookup "amount" fields = Some (JStr amount) ->
  decimal_string amount amount_read ->
  dict_lookup "price" fields = Some (JStr price) ->
  decimal_string price price_read ->
  (forall time id pair a p,
      In (Scheduled_trades time id pair a p)
         (fst (handle_msg E md ob (Some callback) msg)) ->
      id = current_order_id /\ pair = trade_pair
      /\ exact_decimal a amount_read
      /\ exact_decimal p price_read
      /\ calendar_time_of time t)
  /\ (Calendar.MIN_TIMESTAMP <= t <= Calendar.MAX_TIMESTAMP ->
      representable amount_read ->
      representable price_read ->
      exists time a p,
        handle_msg E md ob (Some callback) msg
        = (market_data_events md payload
             ++ [Scheduled_trades time current_order_id trade_pair a p],
           inr tt)
        /\ exact_decimal a amount_read
        /\ exact_decimal p price_read
        /\ calendar_time_of time t).
Proof.
  intros Hb Hmd Htype Htimes Hid Hpair Hamount Ha Hprice Hp.
  pose proof (handle_broadcast_returns E md ob (Some callback) _ _ _ Hb Hmd) as Hh.
  pose proof (dispatch_trade_decimal_strings E ob callback fields t more
                _ _ _ _ _ _ Htype Htimes Hid Hpair Hamount Ha Hprice Hp) as Hd.
  split.
  - intros time id pair a p Hin. rewrite Hh in Hin. cbn [fst] in Hin.
    apply in_app_or in Hin. destruct Hin as [Hin | Hin].
    { unfold market_data_events in Hin. destruct md; [| now destruct Hin].
      destruct Hin as [Hin | []]. discriminate Hin. }
    rewrite Hd in Hin.
    destruct (utcfromtimestamp_int t) as [e | time'] eqn:Htime;
      [now destruct Hin |].
    destruct (_ && _); [| now destruct Hin].
    destruct Hin as [Hin | []]. injection Hin as <- <- <- <- <-.
    apply utcfromtimestamp_int_returns in Htime. destruct Htime as [Ht ->].
    split; [reflexivity | split; [reflexivity |]].
    split; [apply DecimalFacts.Decimal_of_numeral_exact |].
    split; [apply DecimalFacts.Decimal_of_numeral_exact |].
    exact (CalendarFacts.gmtime_spec t Ht).
  - intros Ht Hra Hrp.
    exists (Calendar.gmtime t), (Decimal_of_numeral amount_read),
      (Decimal_of_numeral price_read).
    split; [| split; [apply DecimalFacts.Decimal_of_numeral_exact |
                      split; [apply DecimalFacts.Decimal_of_numeral_exact |
                              exact (CalendarFacts.gmtime_spec t Ht)]]].
    rewrite Hh, Hd, (utcfromtimestamp_int_in_range t Ht).
    apply DecimalFacts.within_limits_representable in Hra, Hrp.
    rewrite Hra, Hrp. reflexivity.
Qed.

(** The scenario of section 8: one trades call with 2023-11-14T22:13:20,
    42, BTC_USD, 1.5 and 30000.25. *)
Lemma trade_conversion_is_exact_witness :
  let E := Examples.example_env [Examples.text_frame Examples.trade_text] in
  let amount := mkNumeral None ["1"%char] (Some ["5"%char]) None in
  let price :=
    mkNumeral None ["3"; "0"; "0"; "0"; "0"]%char (Some ["2"; "5"]%char) None in
  broadcast_envelope Examples.trade_envelope Examples.trade_payload
  /\ decimal_string "1.5" amount
  /\ decimal_string "30000.25" price
  /\ representable amount
  /\ representable price
  /\ Calendar.MIN_TIMESTAMP <= 1700000000 <= Calendar.MAX_TIMESTAMP
  /\ exists (a p : Decimal) (qa qp : Q),
       handle_msg E None None (Some CoroutineFunction) Examples.trade_envelope
       = ([Scheduled_trades (mkDatetime 2023 11 14 22 13 20 0) (JInt 42)
             (JStr "BTC_USD") a p],
          inr tt)
       /\ a = DFinite false 15 (-1)
       /\ p = DFinite false 3000025 (-2)
       /\ Decimal_value a = Some qa /\ (qa == 3 # 2)%Q
       /\ Decimal_value p = Some qp /\ (qp == 120001 # 4)%Q
       /\ run E None None (Some CoroutineFunction) "wss://example"
          = ([Scheduled_trades (mkDatetime 2023 11 14 22 13 20 0) (JInt 42)
                (JStr "BTC_USD") a p],
             Receiving).
Proof.
  intros E amount price.
  assert (Hb : broadcast_envelope Examples.trade_envelope Examples.trade_payload)
    by (eexists; split; [reflexivity | split; reflexivity]).
  assert (Hwa : well_formed_numeral amount).
  { repeat split; try reflexivity. discriminate. }
  assert (Hwp : well_formed_numeral price).
  { repeat split; try reflexivity. discriminate. }
  assert (Hda : decimal_string "1.5" amount)
    by exact (DecimalFacts.numeral_string_is_decimal_string amount Hwa).
  assert (Hdp : decimal_string "30000.25" price)
    by exact (DecimalFacts.numeral_string_is_decimal_string price Hwp).
  assert (Hra : representable amount)
    by (repeat split; vm_compute; discriminate).
  assert (Hrp : representable price)
    by (repeat split; vm_compute; discriminate).
  assert (Ht : Calendar.MIN_TIMESTAMP <= 1700000000 <= Calendar.MAX_TIMESTAMP)
    by (split; vm_compute; discriminate).
  split; [exact Hb |]. split; [exact Hda |]. split; [exact Hdp |].
  split; [exact Hra |]. split; [exact Hrp |]. split; [exact Ht |].
  destruct (proj2 (trade_conversion_is_exact
                     E None None CoroutineFunction
                     Examples.trade_envelope Examples.trade_payload _
                     1700000000 [] (JInt 42) (JStr "BTC_USD")
                     "1.5" "30000.25" amount price
                     Hb eq_refl eq_refl eq_refl eq_refl eq_refl
                     eq_refl Hda eq_refl Hdp)
                  Ht Hra Hrp)
    as [time [a [p [Hh [[qa [Hqa Hva]] [[qp [Hqp Hvp]] _]]]]]].
  assert (Hc : handle_msg E None None (Some CoroutineFunction) Examples.trade_envelope
               = ([Scheduled_trades (mkDatetime 2023 11 14 22 13 20 0) (JInt 42)
                     (JStr "BTC_USD") (DFinite false 15 (-1))
                     (DFinite false 3000025 (-2))],
                  inr tt))
    by (vm_compute; reflexivity).
  pose proof (eq_trans (eq_sym Hc) Hh) as Heq. simpl in Heq.
  injection Heq as Htime Ha Hp.
  exists a, p, qa, qp. subst a p time.
  split; [exact Hc |]. split; [reflexivity |]. split; [reflexivity |].
  split; [exact Hqa |]. split; [| split; [exact Hqp | split]].
  - rewrite Hva. vm_compute. reflexivity.
  - rewrite Hvp. vm_compute. reflexivity.
  - vm_compute. reflexivity.
Defined.

(** Decimal strings in other forms the wire may use: an exponent part, a
    sign, no integer digits, white space and underscores around the
    digits. Each is read as the numeral beside it and converted to the
    [Decimal] that stands for exactly its value. *)
Example exponent_form_is_exact :
  let one_e_minus_8 :=
    mkNumeral None ["1"%char] None
              (Some (mkExponent true (Some true) ["8"%char])) in
  decimal_string "1E-8" one_e_minus_8
  /\ Decimal_from_str "1E-8" = inr (DFinite false 1 (-8))
  /\ (numeral_value one_e_minus_8 == 1 # 100000000)%Q.
Proof.
  intro n.
  assert (Hwf : well_formed_numeral n).
  { repeat split; try reflexivity; discriminate. }
  split; [exact (DecimalFacts.numeral_string_is_decimal_string n Hwf) |].
  split; vm_compute; reflexivity.
Qed.

Example padded_form_is_exact :
  let n :=
    mkNumeral (Some true) [] (Some ["2"; "5"; "0"]%char)
              (Some (mkExponent false (Some false) ["0"; "3"]%char)) in
  decimal_string " -.2_50e+03 " n
  /\ Decimal_from_str " -.2_50e+03 " = inr (DFinite true 250 0)
  /\ (numeral_value n == - (250 # 1))%Q.
Proof.
  intro n. split; [| split; vm_compute; reflexivity].
  split.
  - repeat split; try reflexivity; discriminate.
  - exists [" "%char], (list_ascii_of_string "-.2_50e+03"), [" "%char].
    split; [reflexivity | split; [reflexivity | split; [reflexivity |]]].
    simpl.
    repeat first
      [ apply underscored_nil
      | apply underscored_skip
      | apply underscored_keep; [discriminate |] ].
Qed.
